(** * RetailAnalyzer: a shallow embedding of [retail3.py]

    The program keeps one pandas [DataFrame] and one metrics dictionary in a
    [RetailAnalyzer] object; [load_data], [calculate_metrics],
    [display_summary], [filter_data] and [visualize_data] are its methods and
    [main] is a menu loop around them.

    Modelling choices.
    - A DataFrame is its list of column labels and its list of rows; a row
      maps a column label to a cell.  A cell is dynamically typed, as in
      pandas: missing ([NaN]/[NaT]), a number, a text, or a timestamp.
      Reading a column that a row does not carry gives a missing cell; the
      frames that [load_data] stores carry every column the methods read.
    - Numbers are exact rationals ([Qc]); rounding and the infinities of
      [float64] are outside the model.
    - A timestamp is an integer count of nanoseconds since the epoch.
    - A text is a string of code points below 256 (ASCII and the Latin-1
      supplement), one character per code point; [str.lower] and
      [str.strip] are Python's on that range.  Texts with code points
      from 256 on are not represented.
    - What lies outside the program (the file system, [pd.read_csv], and how
      pandas reads a text as a number or as a date) is a [World] that every
      operation takes as a parameter.  The readers are applied cell by cell.
    - Python exceptions are an [outcome]; what is printed is a list of
      [msg], one constructor per [print] statement of the source. *)

From Stdlib Require Import QArith Qcanon ZArith.
From Stdlib Require Import Ascii String.
From stdpp Require Import numbers strings gmap list sorting.

Local Open Scope Qc_scope.
Local Open Scope string_scope.
Local Open Scope list_scope.

(** ** Cells, rows and frames *)

Inductive cell : Type :=
| NA                (* NaN / NaT / None *)
| Num (x : Qc)      (* int64 / float64 *)
| Str (s : string)  (* object: str *)
| Ts (t : Z).       (* datetime64[ns] *)

#[global] Instance cell_eq_dec : EqDecision cell.
Proof. solve_decision. Defined.

Definition notna (c : cell) : Prop := c ≠ NA.

Definition is_Str (c : cell) : bool :=
  match c with Str _ => true | _ => false end.

Record DataFrame : Type := {
  columns : list string;
  rows : list (gmap string cell)
}.

(** [pd.DataFrame()] *)
Definition empty_frame : DataFrame := {| columns := []; rows := [] |}.

(** [df.empty]: true when either axis has length 0. *)
Definition empty (d : DataFrame) : bool :=
  match rows d, columns d with
  | [], _ => true
  | _, [] => true
  | _, _ => false
  end.

(** [row[col]]; a label the row does not carry reads as missing. *)
Definition get (col : string) (r : gmap string cell) : cell :=
  default NA (r !! col).

(** [df[col]] as the list of its cells, in row order. *)
Definition column (col : string) (d : DataFrame) : list cell :=
  get col <$> rows d.

(** [df.dropna(subset=cols)] *)
Definition dropna (subset : list string) (d : DataFrame) : DataFrame :=
  {| columns := columns d;
     rows := filter (λ r, Forall (λ col, notna (get col r)) subset) (rows d) |}.

(** [df[col] = f(df)], with [f] computed row by row: an existing column is
    overwritten in place, a new one is appended to the header. *)
Definition assign (col : string) (f : gmap string cell → cell)
    (d : DataFrame) : DataFrame :=
  {| columns := if decide (col ∈ columns d) then columns d
                else columns d ++ [col];
     rows := (λ r, <[col := f r]> r) <$> rows d |}.

(** Boolean indexing [df[mask]], the mask computed row by row. *)
Definition select (P : gmap string cell → Prop) `{∀ r, Decision (P r)}
    (d : DataFrame) : DataFrame :=
  {| columns := columns d; rows := filter P (rows d) |}.

(** ** Exceptions and printed lines *)

Inductive exn : Type :=
| ValueError | TypeError | AttributeError | KeyError | EOFError
| ReadError.   (* whatever [pd.read_csv] raises on a file it cannot read *)

Inductive outcome (A : Type) : Type :=
| Return (a : A)
| Raise (e : exn).
Arguments Return {A} a.
Arguments Raise {A} e.

#[global] Instance outcome_ret : MRet outcome := λ A a, Return a.
#[global] Instance outcome_bind : MBind outcome := λ A B f m,
  match m with Return a => f a | Raise e => Raise e end.
#[global] Instance outcome_fmap : FMap outcome := λ A B f m,
  match m with Return a => Return (f a) | Raise e => Raise e end.

Inductive msg : Type :=
| ErrNotCsv (file_path : string)
    (* Error: File not found or is not a CSV file at '...' *)
| ErrMissingColumns (missing_cols : list string)
    (* Error: CSV missing columns: ... *)
| LoadedOk                (* Data loaded and processed successfully. *)
| NoDataMetrics           (* No data loaded to calculate metrics. *)
| NoDataSummary           (* No data loaded. Please load data first. *)
| SummaryHeader           (* --- Retail Analysis Summary --- *)
| SummaryTotal (x : cell)                  (* Total Sales: $... *)
| SummaryAverage (x : cell)                (* Average Sale Value: $... *)
| SummaryProduct (x : cell)                (* Most Popular Product: ... *)
| SummaryFooter           (* ----------------------------- *)
| NoDataFilter            (* No data loaded to filter. *)
| NoDataVisualization     (* No data available for visualization. *)
| Dashboard (d : DataFrame)                (* plt.show() *)
| Menu                    (* the six menu lines *)
| Prompt (text : string)  (* the prompt of one input() *)
| PleaseLoad              (* Please load data first (Option 1). *)
| NoResults               (* No results found for the given criteria. *)
| FilteredData (d : DataFrame)             (* filtered_data.to_string() *)
| Goodbye                 (* Exiting the Retail Sales Analyzer. Goodbye! *)
| InvalidChoice.          (* Invalid choice. Please enter a number ... *)

(** ** Python string helpers *)

(** [s.endswith(suffix)] *)
Definition endswith (s suffix : string) : bool :=
  let n := String.length s in
  let m := String.length suffix in
  (m <=? n)%nat && String.eqb (substring (n - m) m s) suffix.

(** [str.lower] on one code point below 256: the capitals are [A]-[Z] and,
    in the Latin-1 supplement, U+00C0-U+00DE without the multiplication sign
    U+00D7; the small letter of each lies 32 code points further. *)
Definition lower_char (a : ascii) : ascii :=
  let n := nat_of_ascii a in
  if (65 <=? n)%nat && (n <=? 90)%nat
     || (192 <=? n)%nat && (n <=? 222)%nat && negb (n =? 215)%nat
  then ascii_of_nat (n + 32) else a.

(** [s.lower()] *)
Fixpoint lower (s : string) : string :=
  match s with
  | EmptyString => EmptyString
  | String a s' => String (lower_char a) (lower s')
  end.

(** The code points below 256 that [str.isspace] accepts. *)
Definition is_space (a : ascii) : bool :=
  let n := nat_of_ascii a in
  (n =? 32)%nat || ((9 <=? n)%nat && (n <=? 13)%nat)
  || ((28 <=? n)%nat && (n <=? 31)%nat)
  || (n =? 133)%nat || (n =? 160)%nat.

Fixpoint lstrip (s : string) : string :=
  match s with
  | EmptyString => EmptyString
  | String a s' => if is_space a then lstrip s' else s
  end.

(** [s.strip()] *)
Definition strip (s : string) : string :=
  String.rev (lstrip (String.rev (lstrip s))).

(** Truth value of an optional text argument: [None] and [''] are false. *)
Definition truthy (a : option string) : option string :=
  match a with
  | Some s => if decide (s = "") then None else Some s
  | None => None
  end.

(** ** The world outside the program *)

(** What pandas makes of a text it is asked to read as a date. *)
Inductive parsed : Type :=
| Stamp (t : Z)   (* a timestamp *)
| NaT             (* a missing-value spelling: no error, no date *)
| Unparseable.    (* rejected *)

#[global] Instance parsed_eq_dec : EqDecision parsed.
Proof. solve_decision. Defined.

Record World : Type := {
  path_exists : string → bool;             (* os.path.exists *)
  read_csv : string → outcome DataFrame;   (* pd.read_csv *)
  parse_float : string → option Qc;        (* a text read as a number *)
  parse_datetime : string → parsed;        (* a text read as a date *)
  datetime_of_num : Qc → option Z          (* a number read as a date *)
}.

(** ** The analyzer object *)

Record RetailAnalyzer : Type := {
  df : DataFrame;
  metrics : gmap string cell
}.

(** [RetailAnalyzer()] *)
Definition init : RetailAnalyzer := {| df := empty_frame; metrics := ∅ |}.

(** One method call: what it returns or raises, the object afterwards, and
    the lines it printed. *)
Record Run (A : Type) : Type := {
  value : outcome A;
  after : RetailAnalyzer;
  stdout : list msg
}.
Arguments value {A} r.
Arguments after {A} r.
Arguments stdout {A} r.

Definition required_columns : list string :=
  ["Date"; "Product"; "Category"; "Price"; "Quantity Sold"].

Section Methods.
Context (W : World).

(** [pd.to_datetime(series, errors='coerce')], cell by cell. *)
Definition to_datetime_coerce (c : cell) : cell :=
  match c with
  | NA => NA
  | Ts t => Ts t
  | Str s => match parse_datetime W s with Stamp t => Ts t | _ => NA end
  | Num x => match datetime_of_num W x with Some t => Ts t | None => NA end
  end.

(** [pd.to_numeric(series, errors='coerce')], cell by cell. *)
Definition to_numeric_coerce (c : cell) : cell :=
  match c with
  | NA => NA
  | Num x => Num x
  | Str s => match parse_float W s with Some x => Num x | None => NA end
  | Ts t => Num (Qc_of_Z t)
  end.

(** [pd.to_datetime(text)] on one text, errors raised. *)
Definition to_datetime (s : string) : outcome cell :=
  match parse_datetime W s with
  | Stamp t => Return (Ts t)
  | NaT => Return NA
  | Unparseable => Raise ValueError
  end.

(** Series product [a * b]; a missing operand gives a missing result. *)
Definition cell_mul (a b : cell) : cell :=
  match a, b with
  | Num x, Num y => Num (x * y)
  | _, _ => NA
  end.

Definition load_data (file_path : string) (self : RetailAnalyzer)
    : Run bool :=
  if negb (path_exists W file_path) || negb (endswith file_path ".csv") then
    {| value := Return false; after := self;
       stdout := [ErrNotCsv file_path] |}
  else
    match read_csv W file_path with
    | Raise e => {| value := Raise e; after := self; stdout := [] |}
    | Return d0 =>
      let missing_cols := filter (λ col, col ∉ columns d0) required_columns in
      if negb (bool_decide (missing_cols = [])) then
        {| value := Return false;
           after := {| df := empty_frame; metrics := metrics self |};
           stdout := [ErrMissingColumns missing_cols] |}
      else
        let d1 := dropna required_columns d0 in
        let d2 := assign "Date" (λ r, to_datetime_coerce (get "Date" r)) d1 in
        let d3 := assign "Price" (λ r, to_numeric_coerce (get "Price" r)) d2 in
        let d4 := assign "Quantity Sold"
                    (λ r, to_numeric_coerce (get "Quantity Sold" r)) d3 in
        let d5 := dropna ["Date"; "Price"; "Quantity Sold"] d4 in
        let d6 := if decide ("Total Sales" ∉ columns d5) then
                    assign "Total Sales"
                      (λ r, cell_mul (get "Price" r) (get "Quantity Sold" r)) d5
                  else d5 in
        {| value := Return true;
           after := {| df := d6; metrics := metrics self |};
           stdout := [LoadedOk] |}
    end.


(** ** Reductions used by [calculate_metrics] *)

(** [series.sum()]: missing cells are skipped; a text in the column makes
    the numeric reduction fail. *)
Fixpoint nansum (l : list cell) : outcome Qc :=
  match l with
  | [] => Return 0
  | c :: l' =>
    s ← nansum l';
    match c with
    | NA => Return s
    | Num x => Return (x + s)
    | Str _ | Ts _ => Raise TypeError
    end
  end.

(** [series.mean()]: the sum of the cells present over their count; [NaN]
    when none is present. *)
Definition nanmean (l : list cell) : outcome cell :=
  s ← nansum l;
  let n := length (filter notna l) in
  Return (if decide (n = 0%nat) then NA else Num (s / Qc_of_Z (Z.of_nat n))).

(** Order in which [groupby] sorts its keys: numbers before texts, numbers
    by value, texts by code point. *)
Definition rank (c : cell) : nat :=
  match c with NA => 0 | Num _ => 1 | Str _ => 2 | Ts _ => 3 end.

Definition cell_leb (a b : cell) : bool :=
  match a, b with
  | Num x, Num y => bool_decide (x <= y)
  | Str s, Str t => String.leb s t
  | Ts s, Ts t => (s <=? t)%Z
  | _, _ => (rank a <=? rank b)%nat
  end.

Definition cell_le (a b : cell) : Prop := cell_leb a b = true.

#[global] Instance cell_le_dec a b : Decision (cell_le a b).
Proof. unfold cell_le. apply _. Defined.

(** The group labels of [df.groupby(by)]: the distinct keys present, sorted
    ([sort=True]); rows whose key is missing form no group ([dropna=True]). *)
Definition group_keys (by_ : string) (d : DataFrame) : list cell :=
  merge_sort cell_le (remove_dups (filter notna (column by_ d))).

Fixpoint traverse {A B : Type} (f : A → outcome B) (l : list A)
    : outcome (list B) :=
  match l with
  | [] => Return []
  | a :: l' => b ← f a; bs ← traverse f l'; Return (b :: bs)
  end.

(** [df.groupby(by)[col].sum()]: one entry per group label, in the order of
    the labels, holding the sum of [col] over the rows of the group. *)
Definition groupby_sum (by_ col : string) (d : DataFrame)
    : outcome (list (cell * Qc)) :=
  traverse
    (λ k, s ← nansum (get col <$> filter (λ r, get by_ r = k) (rows d));
          Return (k, s))
    (group_keys by_ d).

Fixpoint argmax_from (best : cell * Qc) (s : list (cell * Qc)) : cell :=
  match s with
  | [] => best.1
  | e :: s' =>
    if bool_decide (best.2 < e.2) then argmax_from e s'
    else argmax_from best s'
  end.

(** [series.idxmax()]: the label of the first occurrence of the maximum. *)
Definition idxmax (s : list (cell * Qc)) : outcome cell :=
  match s with
  | [] => Raise ValueError
  | e :: s' => Return (argmax_from e s')
  end.

(** ** The remaining methods *)

Definition calculate_metrics (self : RetailAnalyzer)
    : Run (gmap string cell) :=
  if empty (df self) then
    {| value := Return ∅; after := self; stdout := [NoDataMetrics] |}
  else
    let computed : outcome (gmap string cell) :=
      total_sales ← nansum (column "Total Sales" (df self));
      average_sales ← nanmean (column "Total Sales" (df self));
      most_popular_product ←
        groupby_sum "Product" "Quantity Sold" (df self) ≫= idxmax;
      Return (<["Total Sales" := Num total_sales]>
             (<["Average Sale Value" := average_sales]>
             (<["Most Popular Product" := most_popular_product]> ∅)))
    in
    match computed with
    | Raise e => {| value := Raise e; after := self; stdout := [] |}
    | Return m =>
      {| value := Return m;
         after := {| df := df self; metrics := m |};
         stdout := [] |}
    end.

(** [f"{x:,.2f}"] accepts a float, [NaN] included, and nothing else. *)
Definition formats_as_float (c : cell) : bool :=
  match c with NA | Num _ => true | Str _ | Ts _ => false end.

(** The five [print] calls that close [display_summary], reading the stored
    dictionary. *)
Definition print_summary (m : gmap string cell) : outcome unit * list msg :=
  match m !! "Total Sales" with
  | None => (Raise KeyError, [SummaryHeader])
  | Some t =>
    if negb (formats_as_float t) then (Raise ValueError, [SummaryHeader])
    else
      match m !! "Average Sale Value" with
      | None => (Raise KeyError, [SummaryHeader; SummaryTotal t])
      | Some a =>
        if negb (formats_as_float a) then
          (Raise ValueError, [SummaryHeader; SummaryTotal t])
        else
          match m !! "Most Popular Product" with
          | None =>
            (Raise KeyError, [SummaryHeader; SummaryTotal t; SummaryAverage a])
          | Some p =>
            (Return (), [SummaryHeader; SummaryTotal t; SummaryAverage a;
                         SummaryProduct p; SummaryFooter])
          end
      end
  end.

Definition display_summary (self : RetailAnalyzer) : Run unit :=
  if empty (df self) then
    {| value := Return (); after := self; stdout := [NoDataSummary] |}
  else
    let r := if bool_decide (metrics self = ∅) then calculate_metrics self
             else {| value := Return ∅; after := self; stdout := [] |} in
    match value r with
    | Raise e => {| value := Raise e; after := after r; stdout := stdout r |}
    | Return _ =>
      let '(v, out) := print_summary (metrics (after r)) in
      {| value := v; after := after r; stdout := stdout r ++ out |}
    end.

(** [series.str.lower()] on one cell of an object column: a cell that is
    not a text gives a missing value. *)
Definition str_lower (c : cell) : cell :=
  match c with Str s => Str (lower s) | _ => NA end.

(** [series >= bound] on one cell; a comparison with a missing value is
    false. *)
Definition date_ge (c bound : cell) : Prop :=
  match c, bound with Ts t, Ts b => (b ≤ t)%Z | _, _ => False end.

(** [series <= bound] on one cell. *)
Definition date_le (c bound : cell) : Prop :=
  match c, bound with Ts t, Ts b => (t ≤ b)%Z | _, _ => False end.

#[global] Instance date_ge_dec c b : Decision (date_ge c b).
Proof. destruct c, b; simpl; apply _. Defined.
#[global] Instance date_le_dec c b : Decision (date_le c b).
Proof. destruct c, b; simpl; apply _. Defined.

Definition filter_data (category start_date end_date : option string)
    (self : RetailAnalyzer) : Run DataFrame :=
  if empty (df self) then
    {| value := Return empty_frame; after := self; stdout := [NoDataFilter] |}
  else
    let filtered : outcome DataFrame :=
      d1 ← match truthy category with
           | Some c =>
             (* the [.str] accessor exists on a column of texts only *)
             if existsb is_Str (column "Category" (df self)) then
               Return (select (λ r, str_lower (get "Category" r)
                                    = Str (lower c)) (df self))
             else Raise AttributeError
           | None => Return (df self)
           end;
      d2 ← match truthy start_date with
           | Some s =>
             b ← to_datetime s;
             Return (select (λ r, date_ge (get "Date" r) b) d1)
           | None => Return d1
           end;
      match truthy end_date with
      | Some s =>
        b ← to_datetime s;
        Return (select (λ r, date_le (get "Date" r) b) d2)
      | None => Return d2
      end
    in
    {| value := filtered; after := self; stdout := [] |}.

(** The plotting itself belongs to matplotlib and seaborn: it is one
    [Dashboard] event carrying the frame that is drawn. *)
Definition visualize_data (self : RetailAnalyzer) : Run unit :=
  if empty (df self) then
    {| value := Return (); after := self; stdout := [NoDataVisualization] |}
  else
    {| value := Return (); after := self; stdout := [Dashboard (df self)] |}.

(** ** The menu loop *)

(** What one pass through the body of [while True] leads to. *)
Inductive step : Type :=
| Continue (stdin : list string) (a : RetailAnalyzer) (out : list msg)
| Break (a : RetailAnalyzer) (out : list msg)
| Uncaught (e : exn) (a : RetailAnalyzer) (out : list msg).

(** [x if x else None] *)
Definition or_None (s : string) : option string :=
  if decide (s = "") then None else Some s.

(** One iteration of the loop of [main]; [stdin] holds the lines that the
    calls to [input] will read, and [input] raises [EOFError] when none is
    left.  No exception is caught anywhere in [main]. *)
Definition iteration (stdin : list string) (analyzer : RetailAnalyzer)
    : step :=
  let ask := [Menu; Prompt "Enter your choice (1-5): "] in
  match stdin with
  | [] => Uncaught EOFError analyzer ask
  | choice :: stdin =>
    if decide (choice = "1") then
      let ask := ask ++ [Prompt "Enter the path to the CSV file (default: retail_sales.csv): "] in
      match stdin with
      | [] => Uncaught EOFError analyzer ask
      | line :: stdin =>
        let file_path := strip line in
        let file_path :=
          if decide (file_path = "") then "retail_sales.csv" else file_path in
        let r := load_data file_path analyzer in
        match value r with
        | Raise e => Uncaught e (after r) (ask ++ stdout r)
        | Return success =>
          if success then
            let r' := calculate_metrics (after r) in
            match value r' with
            | Raise e => Uncaught e (after r') (ask ++ stdout r ++ stdout r')
            | Return _ => Continue stdin (after r') (ask ++ stdout r ++ stdout r')
            end
          else Continue stdin (after r) (ask ++ stdout r)
        end
      end
    else if decide (choice = "2") then
      let r := display_summary analyzer in
      match value r with
      | Raise e => Uncaught e (after r) (ask ++ stdout r)
      | Return _ => Continue stdin (after r) (ask ++ stdout r)
      end
    else if decide (choice = "3") then
      if empty (df analyzer) then Continue stdin analyzer (ask ++ [PleaseLoad])
      else
        let p1 := Prompt "Filter by category (or press Enter to skip): " in
        let p2 := Prompt "Enter start date (YYYY-MM-DD) or press Enter to skip: " in
        let p3 := Prompt "Enter end date (YYYY-MM-DD) or press Enter to skip: " in
        match stdin with
        | [] => Uncaught EOFError analyzer (ask ++ [p1])
        | [_] => Uncaught EOFError analyzer (ask ++ [p1; p2])
        | [_; _] => Uncaught EOFError analyzer (ask ++ [p1; p2; p3])
        | l1 :: l2 :: l3 :: stdin =>
          let category := strip l1 in
          let start_date := strip l2 in
          let end_date := strip l3 in
          let r := filter_data (or_None category) (or_None start_date)
                     (or_None end_date) analyzer in
          match value r with
          | Raise e => Uncaught e (after r) (ask ++ [p1; p2; p3] ++ stdout r)
          | Return filtered_data =>
            Continue stdin (after r)
              (ask ++ [p1; p2; p3] ++ stdout r ++
               [if empty filtered_data then NoResults
                else FilteredData filtered_data])
          end
        end
    else if decide (choice = "4") then
      let r := visualize_data analyzer in
      match value r with
      | Raise e => Uncaught e (after r) (ask ++ stdout r)
      | Return _ => Continue stdin (after r) (ask ++ stdout r)
      end
    else if decide (choice = "5") then Break analyzer (ask ++ [Goodbye])
    else Continue stdin analyzer (ask ++ [InvalidChoice])
  end.

(** How a session ends: by the exit choice, or by an exception that no
    handler catches. *)
Inductive ending : Type :=
| Exited
| Terminated (e : exn)
| StillRunning.   (* the bound on iterations was reached *)

(** The loop of [main], run for at most [n] iterations from [analyzer]. *)
Fixpoint loop (n : nat) (stdin : list string) (analyzer : RetailAnalyzer)
    : ending * RetailAnalyzer * list msg :=
  match n with
  | O => (StillRunning, analyzer, [])
  | S n' =>
    match iteration stdin analyzer with
    | Continue stdin' a out =>
      let '(e, a', out') := loop n' stdin' a in (e, a', out ++ out')
    | Break a out => (Exited, a, out)
    | Uncaught e a out => (Terminated e, a, out)
    end
  end.

(** [main()] on the given input lines.  Every iteration that continues has
    read at least one line, and the iteration that finds no line left raises
    [EOFError], so one iteration more than there are lines is enough. *)
Definition main (stdin : list string) : ending * RetailAnalyzer * list msg :=
  loop (S (length stdin)) stdin init.

End Methods.

(** ** The vocabulary of the specification *)

(** [small] is the small letter of the capital letter [capital]. *)
Definition small_of (capital small : ascii) : Prop :=
  let c := N_of_ascii capital in
  ((65 ≤ c ≤ 90)%N ∨ (192 ≤ c ≤ 214)%N ∨ (216 ≤ c ≤ 222)%N) ∧
  N_of_ascii small = (c + 32)%N.

(** The same character, or the capital and the small form of one letter. *)
Definition same_letter (a b : ascii) : Prop :=
  a = b ∨ small_of a b ∨ small_of b a.

(** Two texts that differ in the case of their letters only. *)
Fixpoint caseless_eq (s1 s2 : string) : Prop :=
  match s1, s2 with
  | EmptyString, EmptyString => True
  | String a s1', String b s2' => same_letter a b ∧ caseless_eq s1' s2'
  | _, _ => False
  end.

#[global] Instance same_letter_dec a b : Decision (same_letter a b).
Proof. unfold same_letter, small_of. apply _. Defined.

#[global] Instance caseless_eq_dec s1 s2 : Decision (caseless_eq s1 s2).
Proof.
  revert s2. induction s1 as [|a s1 IH]; intros [|b s2]; simpl; apply _.
Defined.


(** What an optional argument asks of a record: nothing when it is omitted,
    that is [None] or the empty text; [P] of its text otherwise. *)
Definition asks (a : option string) (P : string → Prop) : Prop :=
  match a with
  | None => True
  | Some s => s = "" ∨ P s
  end.

Definition is_timestamp (c : cell) : Prop := ∃ t, c = Ts t.
Definition is_text (c : cell) : Prop := ∃ s, c = Str s.
Definition is_number (c : cell) : Prop := ∃ x, c = Num x.

#[global] Instance is_timestamp_dec c : Decision (is_timestamp c).
Proof.
  destruct c; first [left; by eexists | right; intros [? ?]; discriminate].
Defined.
#[global] Instance is_text_dec c : Decision (is_text c).
Proof.
  destruct c; first [left; by eexists | right; intros [? ?]; discriminate].
Defined.
#[global] Instance is_number_dec c : Decision (is_number c).
Proof.
  destruct c; first [left; by eexists | right; intros [? ?]; discriminate].
Defined.

(** A valid Sales Record: every field present and of its type. *)
Definition valid_record (r : gmap string cell) : Prop :=
  is_timestamp (get "Date" r) ∧
  is_text (get "Product" r) ∧
  is_text (get "Category" r) ∧
  is_number (get "Price" r) ∧
  is_number (get "Quantity Sold" r) ∧
  is_number (get "Total Sales" r).

#[global] Instance valid_record_dec r : Decision (valid_record r).
Proof. unfold valid_record. apply _. Defined.

(** A Dataset: a frame with the six columns whose rows are valid records. *)
Definition Dataset (d : DataFrame) : Prop :=
  required_columns ⊆ columns d ∧
  "Total Sales" ∈ columns d ∧
  Forall valid_record (rows d).

#[global] Instance Dataset_dec d : Decision (Dataset d).
Proof. unfold Dataset. apply _. Defined.

(** The number a cell holds. *)
Definition num_of (c : cell) : Qc :=
  match c with Num x => x | _ => 0 end.

Definition sum_list (l : list Qc) : Qc := foldr Qcplus 0 l.

(** Sum of [total_sales] over all rows. *)
Definition sum_total_sales (d : DataFrame) : Qc :=
  sum_list ((λ r, num_of (get "Total Sales" r)) <$> rows d).

(** Arithmetic mean of [total_sales] over all rows. *)
Definition mean_total_sales (d : DataFrame) : Qc :=
  sum_total_sales d / Qc_of_Z (Z.of_nat (length (rows d))).

(** Sum of [quantity_sold] over the rows of product [p]. *)
Definition quantity_of (p : cell) (d : DataFrame) : Qc :=
  sum_list ((λ r, num_of (get "Quantity Sold" r))
            <$> filter (λ r, get "Product" r = p) (rows d)).

Section SpecVocabulary.
Context (W : World).

(** The cell reads as a date, respectively as a number. *)
Definition parses_as_date (c : cell) : Prop := to_datetime_coerce W c ≠ NA.
Definition parses_as_number (c : cell) : Prop := to_numeric_coerce W c ≠ NA.

(** The row passes every check of the loader. *)
Definition row_ok (r : gmap string cell) : Prop :=
  Forall (λ col, notna (get col r)) required_columns ∧
  parses_as_date (get "Date" r) ∧
  parses_as_number (get "Price" r) ∧
  parses_as_number (get "Quantity Sold" r).

#[global] Instance row_ok_dec r : Decision (row_ok r).
Proof. unfold row_ok, parses_as_date, parses_as_number, notna. apply _. Defined.

(** What a cell reads as when it is asked for a number: a number is
    itself, a text is what the number reader makes of it, a missing cell is
    nothing. *)
Definition reads_as_number (c : cell) : option Qc :=
  match c with
  | Num x => Some x
  | Str s => parse_float W s
  | Ts t => Some (Qc_of_Z t)
  | NA => None
  end.

(** What a cell reads as when it is asked for a date. *)
Definition reads_as_date (c : cell) : option Z :=
  match c with
  | Ts t => Some t
  | Str s => match parse_datetime W s with Stamp t => Some t | _ => None end
  | Num x => datetime_of_num W x
  | NA => None
  end.

(** A valid row of an input table: the five required columns are present,
    [Date] reads as a date, [Price] and [Quantity Sold] read as numbers. *)
Definition valid_row (r : gmap string cell) : Prop :=
  Forall (λ col, get col r ≠ NA)
         ["Date"; "Product"; "Category"; "Price"; "Quantity Sold"] ∧
  is_Some (reads_as_date (get "Date" r)) ∧
  is_Some (reads_as_number (get "Price" r)) ∧
  is_Some (reads_as_number (get "Quantity Sold" r)).

#[global] Instance valid_row_dec r : Decision (valid_row r).
Proof. unfold valid_row. apply _. Defined.


(** The retained form of a row: its three typed columns hold what was read
    from them, every other column is as it was. *)
Definition typed (r : gmap string cell) : gmap string cell :=
  <["Quantity Sold" := to_numeric_coerce W (get "Quantity Sold" r)]>
  (<["Price" := to_numeric_coerce W (get "Price" r)]>
  (<["Date" := to_datetime_coerce W (get "Date" r)]> r)).

(** The derived column. *)
Definition with_total (r : gmap string cell) : gmap string cell :=
  <["Total Sales" := cell_mul (get "Price" r) (get "Quantity Sold" r)]> r.

(** The form in which a row of a table with header [cols] is retained. *)
Definition retained (cols : list string) (r : gmap string cell)
    : gmap string cell :=
  if decide ("Total Sales" ∈ cols) then typed r else with_total (typed r).

(** Case-insensitive equality of the record's category with [c]. *)
Definition category_is (c : string) (r : gmap string cell) : Prop :=
  match get "Category" r with Str s => caseless_eq s c | _ => False end.

(** The record's date is on or after, respectively on or before, the date
    that [s] spells. *)
Definition on_or_after (s : string) (r : gmap string cell) : Prop :=
  match get "Date" r, parse_datetime W s with
  | Ts t, Stamp b => (b ≤ t)%Z
  | _, _ => False
  end.

Definition on_or_before (s : string) (r : gmap string cell) : Prop :=
  match get "Date" r, parse_datetime W s with
  | Ts t, Stamp b => (t ≤ b)%Z
  | _, _ => False
  end.

(** The record satisfies every predicate that was supplied. *)
Definition satisfies (category start_date end_date : option string)
    (r : gmap string cell) : Prop :=
  asks category (λ c, category_is c r) ∧
  asks start_date (λ s, on_or_after s r) ∧
  asks end_date (λ s, on_or_before s r).

#[global] Instance category_is_dec c r : Decision (category_is c r).
Proof. unfold category_is. destruct (get "Category" r); apply _. Defined.
#[global] Instance on_or_after_dec s r : Decision (on_or_after s r).
Proof.
  unfold on_or_after.
  destruct (get "Date" r), (parse_datetime W s); apply _.
Defined.
#[global] Instance on_or_before_dec s r : Decision (on_or_before s r).
Proof.
  unfold on_or_before.
  destruct (get "Date" r), (parse_datetime W s); apply _.
Defined.
#[global] Instance satisfies_dec c s e r : Decision (satisfies c s e r).
Proof.
  unfold satisfies, asks. destruct c, s, e; apply _.
Defined.


(** A supplied bound is rejected by the date reader. *)
Definition rejected (a : option string) : Prop :=
  ∃ s, truthy a = Some s ∧ parse_datetime W s = Unparseable.

End SpecVocabulary.

(** ** A concrete world for the examples

    Plain decimal literals for numbers and ISO calendar dates for
    timestamps: the part of pandas' readers that the example files need. *)

Definition digit (a : ascii) : option Z :=
  let n := nat_of_ascii a in
  if (48 <=? n)%nat && (n <=? 57)%nat then Some (Z.of_nat (n - 48)) else None.

Fixpoint digits_from (acc : Z) (s : string) : option Z :=
  match s with
  | EmptyString => Some acc
  | String a s' => d ← digit a; digits_from (10 * acc + d) s'
  end.

Definition natural (s : string) : option Z :=
  if decide (s = "") then None else digits_from 0 s.

Fixpoint split_dot (s : string) : string * option string :=
  match s with
  | EmptyString => (EmptyString, None)
  | String a s' =>
    if decide (a = "."%char) then (EmptyString, Some s')
    else let '(i, f) := split_dot s' in (String a i, f)
  end.

Definition unsigned_decimal (s : string) : option Qc :=
  let '(i, f) := split_dot s in
  n ← natural i;
  match f with
  | None => Some (Qc_of_Z n)
  | Some fs =>
    m ← natural fs;
    Some (Qc_of_Z n + Qc_of_Z m / Qc_of_Z (10 ^ Z.of_nat (String.length fs)))
  end.

(** [-12.5], [+3], [10] *)
Definition decimal (s : string) : option Qc :=
  match s with
  | String "-" s' => Qcopp <$> unsigned_decimal s'
  | String "+" s' => unsigned_decimal s'
  | _ => unsigned_decimal s
  end.

Definition leap (y : Z) : bool :=
  ((y mod 4 =? 0) && negb (y mod 100 =? 0) || (y mod 400 =? 0))%Z.

Definition days_in_month (y m : Z) : Z :=
  if (m =? 2)%Z then (if leap y then 29 else 28)
  else if ((m =? 4) || (m =? 6) || (m =? 9) || (m =? 11))%Z then 30
  else 31.

(** Days from 1970-01-01 to the given civil date. *)
Definition days_from_civil (y m d : Z) : Z :=
  let y' := (if (m <=? 2)%Z then y - 1 else y)%Z in
  let era := (y' / 400)%Z in
  let yoe := (y' - era * 400)%Z in
  let mp := (if (2 <? m)%Z then m - 3 else m + 9)%Z in
  let doy := ((153 * mp + 2) / 5 + d - 1)%Z in
  let doe := (yoe * 365 + yoe / 4 - yoe / 100 + doy)%Z in
  (era * 146097 + doe - 719468)%Z.

Definition nat_strings : list string :=
  ["NaT"; "nat"; "NAT"; "nan"; "NaN"; "NAN"].

(** [YYYY-MM-DD] *)
Definition iso_date (s : string) : parsed :=
  if decide (s ∈ nat_strings) then NaT
  else if (String.length s =? 10)%nat
          && String.eqb (substring 4 1 s) "-"
          && String.eqb (substring 7 1 s) "-" then
    match natural (substring 0 4 s), natural (substring 5 2 s),
          natural (substring 8 2 s) with
    | Some y, Some m, Some d =>
      if ((1 <=? m) && (m <=? 12) && (1 <=? d) && (d <=? days_in_month y m))%Z
      then Stamp (days_from_civil y m d * 86400000000000)
      else Unparseable
    | _, _, _ => Unparseable
    end
  else Unparseable.

(** A number read as a date counts nanoseconds since the epoch. *)
Definition epoch_ns (x : Qc) : option Z :=
  if decide (Qden (this x) = 1%positive) then Some (Qnum (this x)) else None.

Definition world_of (files : gmap string DataFrame) : World :=
  {| path_exists p := bool_decide (is_Some (files !! p));
     read_csv p := match files !! p with
                   | Some d => Return d
                   | None => Raise ReadError
                   end;
     parse_float := decimal;
     parse_datetime := iso_date;
     datetime_of_num := epoch_ns |}.

Definition record (date product category : string) (price quantity : cell)
    : gmap string cell :=
  list_to_map [("Date", Str date); ("Product", Str product);
               ("Category", Str category); ("Price", price);
               ("Quantity Sold", quantity)].

(** The two-row table of the specification. *)
Definition sales_csv : DataFrame :=
  {| columns := required_columns;
     rows := [record "2024-01-01" "P1" "Food" (Num (Qc_of_Z 10)) (Num (Qc_of_Z 3));
              record "2024-02-01" "P2" "Food" (Num (Qc_of_Z 5)) (Num (Qc_of_Z 10))] |}.

(** A table with a text in [Price], a date that is none, and an empty
    [Product]; one cell of [Price] that is not a number makes every cell of
    the column a text. *)
Definition dirty_csv : DataFrame :=
  {| columns := required_columns;
     rows := [record "2024-01-01" "P1" "Food" (Str "10") (Num (Qc_of_Z 3));
              record "2024-01-02" "P2" "Food" (Str "abc") (Num (Qc_of_Z 1));
              record "someday" "P3" "Toys" (Str "2.5") (Num (Qc_of_Z 4));
              <["Product" := NA]>
                (record "2024-01-04" "" "Toys" (Str "7") (Num (Qc_of_Z 2)));
              record "2024-01-05" "P5" "Toys" (Str "2.5") (Num (Qc_of_Z 4))] |}.

(** A table with a negative price and a negative, fractional quantity. *)
Definition returns_csv : DataFrame :=
  {| columns := required_columns;
     rows := [record "2024-03-01" "P1" "Food" (Num (Qc_of_Z (-5)))
                (Num (Qc_of_Z (-5) / Qc_of_Z 2))] |}.

(** A table without a [Price] column. *)
Definition no_price_csv : DataFrame :=
  {| columns := ["Date"; "Product"; "Category"; "Quantity Sold"];
     rows := [delete "Price"
                (record "2024-01-01" "P1" "Food" NA (Num (Qc_of_Z 3)))] |}.

(** A table in which two products sell the same quantity; the one that
    comes first in the rows is the one that sorts last. *)
Definition tie_csv : DataFrame :=
  {| columns := required_columns;
     rows := [record "2024-01-01" "Pear" "Food" (Num (Qc_of_Z 2)) (Num (Qc_of_Z 5));
              record "2024-01-02" "Apple" "Food" (Num (Qc_of_Z 3)) (Num (Qc_of_Z 5))] |}.

(** A table that is a header and nothing else. *)
Definition header_only_csv : DataFrame :=
  {| columns := required_columns; rows := [] |}.

Definition files : gmap string DataFrame :=
  list_to_map [("retail_sales.csv", sales_csv); ("dirty.csv", dirty_csv);
               ("returns.csv", returns_csv); ("no_price.csv", no_price_csv);
               ("header_only.csv", header_only_csv); ("tie.csv", tie_csv);
               ("retail_sales.txt", sales_csv)].

Definition world : World := world_of files.

(** The session after [load_data("retail_sales.csv")] and
    [calculate_metrics()], as option 1 of the menu leaves it. *)
Definition loaded : RetailAnalyzer :=
  after (calculate_metrics (after (load_data world "retail_sales.csv" init))).

#[global] Instance exn_eq_dec : EqDecision exn.
Proof. solve_decision. Defined.
#[global] Instance outcome_eq_dec `{EqDecision A} : EqDecision (outcome A).
Proof. solve_decision. Defined.
#[global] Instance DataFrame_eq_dec : EqDecision DataFrame.
Proof. solve_decision. Defined.
#[global] Instance RetailAnalyzer_eq_dec : EqDecision RetailAnalyzer.
Proof. solve_decision. Defined.
#[global] Instance msg_eq_dec : EqDecision msg.
Proof. solve_decision. Defined.
#[global] Instance ending_eq_dec : EqDecision ending.
Proof. solve_decision. Defined.

(** ** The aggregates behind the dashboard

    Before it plots, [visualize_data] computes two series from the frame:
    the total sales by category, largest first, for the bar chart, and the
    total sales by date for the line graph. *)

(** [series.sort_values(ascending=False)]; the order among equal values is
    the one of the sorting algorithm and is not used below. *)
Definition value_ge (a b : cell * Qc) : Prop := b.2 <= a.2.

#[global] Instance value_ge_dec a b : Decision (value_ge a b).
Proof. unfold value_ge. apply _. Defined.

Definition sort_values_descending (s : list (cell * Qc)) : list (cell * Qc) :=
  merge_sort value_ge s.

(** [df.groupby('Category')['Total Sales'].sum().sort_values(ascending=False)] *)
Definition category_sales (d : DataFrame) : outcome (list (cell * Qc)) :=
  s ← groupby_sum "Category" "Total Sales" d;
  Return (sort_values_descending s).

(** [df.groupby('Date')['Total Sales'].sum()] *)
Definition daily_sales (d : DataFrame) : outcome (list (cell * Qc)) :=
  groupby_sum "Date" "Total Sales" d.

(** The sum of column [col] over the rows whose [by_] is [k]. *)
Definition group_total (by_ col : string) (k : cell) (d : DataFrame) : Qc :=
  sum_list ((λ r, num_of (get col r)) <$> filter (λ r, get by_ r = k) (rows d)).

(** Every total of the frame is a number or is missing. *)
Definition numeric_totals (d : DataFrame) : Prop :=
  Forall (λ r, get "Total Sales" r = NA ∨ is_number (get "Total Sales" r))
         (rows d).


(** ** What a session can hold *)

(** A row as [load_data] leaves it: a timestamp, two numbers, and a product
    and a category that are present. *)
Definition typed_row (r : gmap string cell) : Prop :=
  is_timestamp (get "Date" r) ∧
  notna (get "Product" r) ∧
  notna (get "Category" r) ∧
  is_number (get "Price" r) ∧
  is_number (get "Quantity Sold" r).

#[global] Instance typed_row_dec r : Decision (typed_row r).
Proof. unfold typed_row, notna. apply _. Defined.

#[global] Instance numeric_totals_dec d : Decision (numeric_totals d).
Proof. unfold numeric_totals. apply _. Defined.

(** The frame of a session: the empty DataFrame, or a frame with the six
    columns whose rows are typed. *)
Definition stored_frame (d : DataFrame) : Prop :=
  d = empty_frame ∨
  (required_columns ⊆ columns d ∧ "Total Sales" ∈ columns d ∧
   Forall typed_row (rows d)).

(** The dictionary of a session: empty, or the three entries that
    [calculate_metrics] writes. *)
Definition stored_metrics (m : gmap string cell) : Prop :=
  m = ∅ ∨
  ∃ total average product,
    m = <["Total Sales" := Num total]>
        (<["Average Sale Value" := average]>
        (<["Most Popular Product" := product]> ∅)) ∧
    formats_as_float average = true.

Definition session_ok (a : RetailAnalyzer) : Prop :=
  stored_frame (df a) ∧ stored_metrics (metrics a).

(** The session object that an iteration of the menu loop leaves. *)
Definition analyzer_of (s : step) : RetailAnalyzer :=
  match s with
  | Continue _ a _ | Break a _ | Uncaught _ a _ => a
  end.

(** A table that brings its own [Total Sales] column, blank in one row. *)
Definition totals_csv : DataFrame :=
  {| columns := required_columns ++ ["Total Sales"];
     rows := [<["Total Sales" := Num (Qc_of_Z 30)]>
                (record "2024-01-01" "P1" "Food" (Num (Qc_of_Z 10)) (Num (Qc_of_Z 3)));
              <["Total Sales" := NA]>
                (record "2024-01-02" "P2" "Food" (Num (Qc_of_Z 5)) (Num (Qc_of_Z 10)));
              <["Total Sales" := Num (Qc_of_Z 12)]>
                (record "2024-01-02" "P3" "Toys" (Num (Qc_of_Z 4)) (Num (Qc_of_Z 3)))] |}.

(** A table with two categories over three dates, not in date order. *)
Definition mixed_csv : DataFrame :=
  {| columns := required_columns;
     rows := [record "2024-01-03" "P1" "Food" (Num (Qc_of_Z 10)) (Num (Qc_of_Z 3));
              record "2024-01-01" "P2" "Toys" (Num (Qc_of_Z 5)) (Num (Qc_of_Z 10));
              record "2024-01-02" "P3" "Food" (Num (Qc_of_Z 4)) (Num (Qc_of_Z 3));
              record "2024-01-01" "P1" "Food" (Num (Qc_of_Z 10)) (Num (Qc_of_Z 1))] |}.

Definition more_files : gmap string DataFrame :=
  <["totals.csv" := totals_csv]> (<["mixed.csv" := mixed_csv]> files).

Definition wider_world : World := world_of more_files.

(** A world in which every path exists and no file can be read as a table. *)
Definition unreadable_world : World :=
  {| path_exists _ := true;
     read_csv _ := Raise ReadError;
     parse_float := decimal;
     parse_datetime := iso_date;
     datetime_of_num := epoch_ns |}.

(** * Properties *)

(** ** Rows and frames *)

Lemma get_insert_eq col v (r : gmap string cell) : get col (<[col := v]> r) = v.
Proof. unfold get. by rewrite lookup_insert_eq. Qed.

Lemma get_insert_ne col col' v (r : gmap string cell) :
  col ≠ col' → get col' (<[col := v]> r) = get col' r.
Proof. intros Hne. unfold get. by rewrite lookup_insert_ne. Qed.

Lemma filter_fmap {A B} (f : A → B) (P : B → Prop) `{!∀ y, Decision (P y)}
    (l : list A) :
  filter P (f <$> l) = f <$> filter (λ x, P (f x)) l.
Proof.
  induction l as [|a l IH]; [done|].
  rewrite fmap_cons. destruct (decide (P (f a))) as [Hp|Hp].
  - rewrite !filter_cons_True by done. by rewrite fmap_cons, IH.
  - rewrite !filter_cons_False by done. exact IH.
Qed.


Lemma required_columns_present (cols : list string) :
  filter (λ col, col ∉ cols) required_columns = [] ↔ required_columns ⊆ cols.
Proof.
  split.
  - intros Hnil col Hin. destruct (decide (col ∈ cols)) as [|Hout]; [done|].
    by destruct (filter_nil_not_elem_of _ _ col Hnil Hout).
  - intros Hsub. induction required_columns as [|c l IH]; [done|].
    rewrite filter_cons_False.
    + apply IH. intros x Hx. apply Hsub. by right.
    + intros Hout. apply Hout, Hsub. by left.
Qed.

(** ** [load_data] *)

Section Loading.
Context (W : World).

(** The three typed columns of [typed r] hold what the readers returned. *)
Lemma typed_columns r :
  get "Date" (typed W r) = to_datetime_coerce W (get "Date" r) ∧
  get "Price" (typed W r) = to_numeric_coerce W (get "Price" r) ∧
  get "Quantity Sold" (typed W r)
    = to_numeric_coerce W (get "Quantity Sold" r).
Proof.
  unfold typed. repeat split.
  - rewrite !get_insert_ne by done. apply get_insert_eq.
  - rewrite get_insert_ne by done. apply get_insert_eq.
  - apply get_insert_eq.
Qed.

Lemma typed_other col r :
  col ∉ ["Date"; "Price"; "Quantity Sold"] →
  typed W r !! col = r !! col.
Proof.
  intros Hcol. unfold typed.
  rewrite !lookup_insert_ne; [done| | |];
    intros Heq; apply Hcol; rewrite <- Heq; set_solver.
Qed.

(** The rows after the two [dropna] and the three conversions. *)
Lemma cleaning_pipeline (d0 : DataFrame) :
  rows (dropna ["Date"; "Price"; "Quantity Sold"]
    (assign "Quantity Sold" (λ r, to_numeric_coerce W (get "Quantity Sold" r))
    (assign "Price" (λ r, to_numeric_coerce W (get "Price" r))
    (assign "Date" (λ r, to_datetime_coerce W (get "Date" r))
    (dropna required_columns d0)))))
  = typed W <$> filter (row_ok W) (rows d0).
Proof.
  unfold dropna, assign; simpl.
  rewrite <- !list_fmap_compose, filter_fmap, list_filter_filter.
  assert (Hstep : ∀ r,
    ((λ r0, <["Quantity Sold" := to_numeric_coerce W (get "Quantity Sold" r0)]> r0)
     ∘ (λ r0, <["Price" := to_numeric_coerce W (get "Price" r0)]> r0)
     ∘ (λ r0, <["Date" := to_datetime_coerce W (get "Date" r0)]> r0)) r
    = typed W r).
  { intros r. unfold typed; simpl.
    rewrite (get_insert_ne "Price" "Quantity Sold") by done.
    rewrite (get_insert_ne "Date" "Quantity Sold") by done.
    by rewrite (get_insert_ne "Date" "Price") by done. }
  transitivity
    (((λ r0, <["Quantity Sold" := to_numeric_coerce W (get "Quantity Sold" r0)]> r0)
      ∘ (λ r0, <["Price" := to_numeric_coerce W (get "Price" r0)]> r0)
      ∘ (λ r0, <["Date" := to_datetime_coerce W (get "Date" r0)]> r0))
     <$> filter (row_ok W) (rows d0)).
  - f_equal. apply list_filter_iff. intros r. rewrite Hstep.
    destruct (typed_columns r) as (Hd & Hp & Hq).
    rewrite !Forall_cons, Forall_nil. cbv beta. rewrite Hd, Hp, Hq.
    unfold row_ok, parses_as_date, parses_as_number, notna, required_columns.
    rewrite !Forall_cons, Forall_nil. cbv beta. tauto.
  - apply list_fmap_ext. intros _ r _. apply Hstep.
Qed.

Lemma to_numeric_coerce_Num c :
  to_numeric_coerce W c ≠ NA → ∃ x, to_numeric_coerce W c = Num x.
Proof.
  destruct c as [|x|s|t]; simpl; [done|eauto| |eauto].
  destruct (parse_float W s); [eauto|done].
Qed.

Lemma to_datetime_coerce_Ts c :
  to_datetime_coerce W c ≠ NA → ∃ t, to_datetime_coerce W c = Ts t.
Proof.
  destruct c as [|x|s|t]; simpl; [done| | |eauto].
  - destruct (datetime_of_num W x); [eauto|done].
  - destruct (parse_datetime W s); [eauto|done|done].
Qed.

(** What a load that passes the path and schema checks leaves behind. *)
Lemma load_data_success file_path self raw :
  path_exists W file_path = true →
  endswith file_path ".csv" = true →
  read_csv W file_path = Return raw →
  required_columns ⊆ columns raw →
  let r := load_data W file_path self in
  value r = Return true ∧
  stdout r = [LoadedOk] ∧
  metrics (after r) = metrics self ∧
  columns (df (after r))
    = (if decide ("Total Sales" ∈ columns raw) then columns raw
       else columns raw ++ ["Total Sales"]) ∧
  rows (df (after r))
    = retained W (columns raw) <$> filter (row_ok W) (rows raw).
Proof.
  intros Hex Hcsv Hread Hcols. unfold load_data.
  rewrite Hex, Hcsv, Hread. cbn [negb orb].
  rewrite bool_decide_eq_true_2 by (by apply required_columns_present).
  cbn [negb value stdout after metrics df].
  assert (Hrequired : ∀ col, col ∈ required_columns → col ∈ columns raw)
    by (intros col; apply Hcols).
  assert (Hd : "Date" ∈ columns raw) by (apply Hrequired; set_solver).
  assert (Hp : "Price" ∈ columns raw) by (apply Hrequired; set_solver).
  assert (Hq : "Quantity Sold" ∈ columns raw)
    by (apply Hrequired; set_solver).
  match goal with
  | |- context [decide ("Total Sales" ∉ columns ?d)] =>
    assert (Hsame : columns d = columns raw)
  end.
  { unfold dropna, assign; cbn [columns].
    rewrite (decide_True (P := "Date" ∈ columns raw)) by done.
    rewrite (decide_True (P := "Price" ∈ columns raw)) by done.
    by rewrite (decide_True (P := "Quantity Sold" ∈ columns raw)) by done. }
  rewrite Hsame. unfold retained.
  destruct (decide ("Total Sales" ∈ columns raw)) as [Hin|Hout].
  - rewrite decide_False by (intros Hc; by apply Hc).
    repeat split; [done|]. apply cleaning_pipeline.
  - rewrite decide_True by done. repeat split.
    + unfold assign at 1; cbn [columns]. rewrite Hsame.
      by rewrite decide_False by done.
    + unfold assign at 1; cbn [rows]. rewrite cleaning_pipeline.
      by rewrite <- list_fmap_compose.
Qed.

(** Every retained row carries a timestamp and two numbers. *)
Lemma retained_typed cols r :
  row_ok W r →
  (∃ t, get "Date" (retained W cols r) = Ts t) ∧
  (∃ p, get "Price" (retained W cols r) = Num p) ∧
  (∃ q, get "Quantity Sold" (retained W cols r) = Num q).
Proof.
  intros (_ & Hd & Hp & Hq).
  destruct (typed_columns r) as (Ed & Ep & Eq).
  apply to_datetime_coerce_Ts in Hd. apply to_numeric_coerce_Num in Hp, Hq.
  unfold retained, with_total. destruct (decide _).
  - rewrite Ed, Ep, Eq. done.
  - rewrite !get_insert_ne by done. rewrite Ed, Ep, Eq. done.
Qed.






(** C6. For every input table whose header lacks a [Total Sales] column,
    the Dataset after [load_data] has that column, and every retained row
    holds in it the product of its price and its quantity sold. *)
Theorem load_data_derives_total_sales file_path self raw :
  path_exists W file_path = true →
  endswith file_path ".csv" = true →
  read_csv W file_path = Return raw →
  required_columns ⊆ columns raw →
  "Total Sales" ∉ columns raw →
  let d := df (after (load_data W file_path self)) in
  "Total Sales" ∈ columns d ∧
  Forall (λ r, ∃ price quantity_sold,
            get "Price" r = Num price ∧
            get "Quantity Sold" r = Num quantity_sold ∧
            get "Total Sales" r = Num (price * quantity_sold)) (rows d).
Proof.
  intros Hex Hcsv Hread Hcols Hno d.
  destruct (load_data_success file_path self raw Hex Hcsv Hread Hcols)
    as (_ & _ & _ & Hc & Hr).
  subst d. rewrite Hc, Hr, decide_False by done. split; [set_solver|].
  apply Forall_fmap, Forall_forall. intros r Hin.
  apply list_elem_of_filter in Hin as [Hok _].
  destruct (retained_typed (columns raw) r Hok) as (_ & [p Hp] & [q Hq]).
  exists p, q. repeat split; [done..|].
  revert Hp Hq. unfold retained, with_total.
  rewrite decide_False by done. rewrite !get_insert_ne by done.
  intros -> ->. by rewrite get_insert_eq.
Qed.

(** C7. For every input file whose header is missing at least one of
    [Date], [Product], [Category], [Price], [Quantity Sold], [load_data]
    returns [False], reports exactly the missing columns, and leaves the
    empty DataFrame in the session: nothing of the file that was read
    stays. *)
Theorem load_data_missing_columns file_path self raw :
  path_exists W file_path = true →
  endswith file_path ".csv" = true →
  read_csv W file_path = Return raw →
  ¬ required_columns ⊆ columns raw →
  let r := load_data W file_path self in
  value r = Return false ∧
  df (after r) = empty_frame ∧
  ∃ missing_cols,
    stdout r = [ErrMissingColumns missing_cols] ∧
    missing_cols ≠ [] ∧
    ∀ col, col ∈ missing_cols ↔ col ∈ required_columns ∧ col ∉ columns raw.
Proof.
  intros Hex Hcsv Hread Hcols. unfold load_data.
  rewrite Hex, Hcsv, Hread. cbn [negb orb].
  rewrite bool_decide_eq_false_2
    by (intros Hnil; by apply Hcols, required_columns_present).
  cbn [negb value stdout after df]. repeat split.
  eexists. split; [reflexivity|]. split.
  - intros Hnil. by apply Hcols, required_columns_present.
  - intros col. rewrite list_elem_of_filter. tauto.
Qed.

(** C3, as the code has it.  A call to [load_data] returns [False] in two
    cases and in no other.  When the path does not exist or does not end in
    [.csv], the call returns [False], prints the path error and leaves the
    session exactly as it was, the Dataset of an earlier load included.
    When the path passes that check, the file is read and its header lacks
    a required column, the call returns [False], prints the missing columns
    and resets the Dataset to the empty DataFrame. *)
Theorem load_data_failure file_path self :
  let r := load_data W file_path self in
  (path_exists W file_path = false ∨ endswith file_path ".csv" = false →
   value r = Return false ∧
   after r = self ∧
   stdout r = [ErrNotCsv file_path])
  ∧
  (∀ raw,
     path_exists W file_path = true →
     endswith file_path ".csv" = true →
     read_csv W file_path = Return raw →
     ¬ required_columns ⊆ columns raw →
     value r = Return false ∧
     df (after r) = empty_frame ∧
     metrics (after r) = metrics self ∧
     ∃ missing_cols, stdout r = [ErrMissingColumns missing_cols])
  ∧
  (value r = Return false →
   (path_exists W file_path = false ∨ endswith file_path ".csv" = false)
   ∨
   (path_exists W file_path = true ∧
    endswith file_path ".csv" = true ∧
    ∃ raw, read_csv W file_path = Return raw ∧
           ¬ required_columns ⊆ columns raw)).
Proof.
  cbv zeta. split; [|split].
  - intros Hbad. unfold load_data.
    assert (negb (path_exists W file_path)
            || negb (endswith file_path ".csv") = true) as ->; [|done].
    destruct Hbad as [->| ->]; [done|apply orb_true_r].
  - intros raw Hex Hcsv Hread Hcols. unfold load_data.
    rewrite Hex, Hcsv, Hread. cbn [negb orb].
    rewrite bool_decide_eq_false_2
      by (intros Hnil; by apply Hcols, required_columns_present).
    cbn [negb value stdout after df metrics]. eauto.
  - unfold load_data.
    destruct (path_exists W file_path) eqn:Hex;
      [destruct (endswith file_path ".csv") eqn:Hcsv|]; cbn [negb orb];
      [|intros _; left; auto..].
    destruct (read_csv W file_path) as [raw|e] eqn:Hread; [|done].
    destruct (bool_decide _) eqn:Hmiss; cbn [negb value]; [done|].
    intros _. right. repeat split. exists raw. split; [done|].
    intros Hsub. apply required_columns_present in Hsub.
    by rewrite bool_decide_eq_true_2 in Hmiss.
Qed.

(** C9, as the code has it.  Every record retained in the Dataset after a
    successful load has a timestamp as its date and a number as its price
    and as its quantity sold.  The loader looks at neither the sign nor the
    integrality of the two numbers. *)
Theorem load_data_retains_numbers file_path self raw :
  path_exists W file_path = true →
  endswith file_path ".csv" = true →
  read_csv W file_path = Return raw →
  required_columns ⊆ columns raw →
  Forall (λ r, (∃ date, get "Date" r = Ts date) ∧
               (∃ price, get "Price" r = Num price) ∧
               (∃ quantity_sold, get "Quantity Sold" r = Num quantity_sold))
    (rows (df (after (load_data W file_path self)))).
Proof.
  intros Hex Hcsv Hread Hcols.
  destruct (load_data_success file_path self raw Hex Hcsv Hread Hcols)
    as (_ & _ & _ & _ & ->).
  apply Forall_fmap, Forall_forall. intros r Hin.
  apply list_elem_of_filter in Hin as [Hok _].
  by apply retained_typed.
Qed.

(** X16. A table of text products and categories without a [Total Sales]
    column loads into a Dataset: the frame that a successful [load_data]
    stores has the six columns, and every row of it is a valid record. *)
Lemma load_data_Dataset file_path self raw :
  path_exists W file_path = true →
  endswith file_path ".csv" = true →
  read_csv W file_path = Return raw →
  required_columns ⊆ columns raw →
  "Total Sales" ∉ columns raw →
  Forall (λ r, ∀ col, col ∈ ["Product"; "Category"] →
               get col r = NA ∨ is_text (get col r)) (rows raw) →
  Dataset (df (after (load_data W file_path self))).
Proof.
  intros Hex Hcsv Hread Hcols Hno Htext.
  destruct (load_data_success file_path self raw Hex Hcsv Hread Hcols)
    as (_ & _ & _ & Hc & Hr).
  unfold Dataset. rewrite Hc, Hr, decide_False by done.
  split; [|split].
  - intros col Hcol. apply elem_of_app. left. by apply Hcols.
  - apply elem_of_app. right. by left.
  - apply Forall_fmap, Forall_forall. intros r [Hok Hin]%list_elem_of_filter.
    rewrite Forall_forall in Htext. specialize (Htext r Hin).
    destruct (retained_typed (columns raw) r Hok) as (Hd & [p Hp] & [q Hq]).
    assert (Hkeep : ∀ col, col ∈ ["Product"; "Category"] →
              get col (retained W (columns raw) r) = get col r).
    { intros col Hcol. unfold get, retained, with_total.
      rewrite decide_False by done.
      rewrite lookup_insert_ne
        by (intros <-; repeat (apply elem_of_cons in Hcol as [[=]|Hcol]);
            by apply elem_of_nil in Hcol).
      rewrite typed_other; [done|]. intros Hc3.
      repeat (apply elem_of_cons in Hcol as [->|Hcol]);
        [..|by apply elem_of_nil in Hcol];
        repeat (apply elem_of_cons in Hc3 as [[=]|Hc3]);
        by apply elem_of_nil in Hc3. }
    destruct Hok as (Hna & _). unfold required_columns in Hna.
    apply Forall_cons in Hna as [_ Hna].
    apply Forall_cons in Hna as [Hprod Hna].
    apply Forall_cons in Hna as [Hcat _].
    repeat split; [done| | |by exists p|by exists q|].
    + rewrite Hkeep by repeat constructor.
      by destruct (Htext "Product") as [?|?]; [repeat constructor| |].
    + rewrite Hkeep by repeat constructor.
      by destruct (Htext "Category") as [?|?]; [repeat constructor| |].
    + exists (p * q). unfold retained, with_total in *.
      rewrite decide_False in * by done.
      rewrite !get_insert_ne in Hp, Hq by done.
      by rewrite get_insert_eq, Hp, Hq.
Qed.

End Loading.

(** ** Reductions *)

Lemma nansum_numbers l :
  Forall is_number l → nansum l = Return (sum_list (num_of <$> l)).
Proof.
  induction 1 as [|c l [x ->] _ IH]; [done|].
  simpl. by rewrite IH.
Qed.

Lemma notna_numbers l : Forall is_number l → filter notna l = l.
Proof.
  induction 1 as [|c l [x ->] _ IH]; [done|].
  rewrite filter_cons_True by done. by rewrite IH.
Qed.

Lemma nanmean_numbers l :
  Forall is_number l → l ≠ [] →
  nanmean l
  = Return (Num (sum_list (num_of <$> l) / Qc_of_Z (Z.of_nat (length l)))).
Proof.
  intros Hl Hne. unfold nanmean.
  rewrite nansum_numbers, notna_numbers by done. simpl.
  destruct l; [done|]. by rewrite decide_False by done.
Qed.

Lemma traverse_Return {A B} (f : A → outcome B) (g : A → B) l :
  (∀ a, a ∈ l → f a = Return (g a)) → traverse f l = Return (g <$> l).
Proof.
  induction l as [|a l IH]; intros Hf; [done|].
  simpl. rewrite Hf by left. simpl. rewrite IH; [done|].
  intros b Hb. apply Hf. by right.
Qed.

(** ** Grouping *)

Lemma cell_leb_total a b : cell_leb a b = false → cell_leb b a = true.
Proof.
  destruct a as [|x|s|t], b as [|y|u|v]; simpl; try done.
  - rewrite bool_decide_eq_false, bool_decide_eq_true.
    intros H. apply Qclt_le_weak. by apply Qclt_nge.
  - unfold String.leb. rewrite (String.compare_antisym u s).
    by destruct (String.compare s u).
  - lia.
Qed.

#[local] Instance cell_le_total : Total cell_le.
Proof.
  intros a b. unfold cell_le.
  destruct (cell_leb a b) eqn:Hab; [by left|right].
  by apply cell_leb_total.
Qed.

(** The group labels are the keys present in the column, each once, in
    ascending order. *)
Lemma elem_of_group_keys k by_ d :
  k ∈ group_keys by_ d ↔ k ≠ NA ∧ k ∈ column by_ d.
Proof.
  unfold group_keys.
  rewrite merge_sort_Permutation, elem_of_remove_dups, list_elem_of_filter.
  done.
Qed.



(** ** [idxmax] *)

(** [argmax_from] returns either the running best, which then nothing in the
    rest of the series exceeds, or an entry of the rest that exceeds
    everything before it and is exceeded by nothing after it. *)
Lemma argmax_from_spec best s :
  (argmax_from best s = best.1 ∧ Forall (λ e, e.2 <= best.2) s) ∨
  (∃ pre v post,
     s = pre ++ (argmax_from best s, v) :: post ∧ best.2 < v ∧
     Forall (λ e, e.2 < v) pre ∧ Forall (λ e, e.2 <= v) post).
Proof.
  revert best. induction s as [|e s IH]; intros best; simpl.
  - left. by split.
  - destruct (decide (best.2 < e.2)) as [Hlt|Hge].
    + rewrite bool_decide_eq_true_2 by done.
      destruct (IH e) as [[Hk Hs]|(pre & v & post & Hs & Hv & Hpre & Hpost)].
      * right. exists [], e.2, s. rewrite Hk. destruct e as [k v]; simpl in *.
        repeat split; [done|constructor|done].
      * right. exists (e :: pre), v, post. rewrite Hs at 1.
        repeat split; [by transitivity e.2|by constructor|done].
    + rewrite bool_decide_eq_false_2 by done.
      apply Qcle_ngt in Hge.
      destruct (IH best) as [[Hk Hs]|(pre & v & post & Hs & Hv & Hpre & Hpost)].
      * left. split; [done|by constructor].
      * right. exists (e :: pre), v, post. rewrite Hs at 1.
        repeat split; [done| |done].
        constructor; [|done]. by apply Qcle_lt_trans with best.2.
Qed.

(** On a series that is not empty [idxmax] returns the label of the first
    entry that holds the maximum. *)
Lemma idxmax_first_maximum s :
  s ≠ [] →
  ∃ k pre v post,
    idxmax s = Return k ∧ s = pre ++ (k, v) :: post ∧
    Forall (λ e, e.2 < v) pre ∧ Forall (λ e, e.2 <= v) post.
Proof.
  destruct s as [|e s]; [done|intros _]. simpl.
  destruct (argmax_from_spec e s)
    as [[Hk Hs]|(pre & v & post & Hs & Hv & Hpre & Hpost)].
  - exists (argmax_from e s), [], e.2, s. rewrite Hk.
    destruct e; simpl. repeat split; [constructor|done].
  - exists (argmax_from e s), (e :: pre), v, post.
    repeat split; [by rewrite Hs at 1|by constructor|done].
Qed.

(** ** [calculate_metrics] *)

Lemma Dataset_rows d : Dataset d → empty d = false → rows d ≠ [].
Proof. unfold empty. intros _ He Hr. by rewrite Hr in He. Qed.

Lemma Dataset_total_sales d :
  Dataset d → Forall is_number (column "Total Sales" d).
Proof.
  intros (_ & _ & Hrows). unfold column. apply Forall_fmap.
  eapply Forall_impl; [exact Hrows|]. by intros r (_ & _ & _ & _ & _ & Ht).
Qed.

Lemma Dataset_quantity_sold d (P : gmap string cell → Prop)
    `{!∀ r, Decision (P r)} :
  Dataset d → Forall is_number (get "Quantity Sold" <$> filter P (rows d)).
Proof.
  intros (_ & _ & Hrows). apply Forall_fmap, Forall_forall.
  intros r [_ Hr]%list_elem_of_filter.
  rewrite Forall_forall in Hrows.
  by destruct (Hrows r Hr) as (_ & _ & _ & _ & Hq & _).
Qed.

Lemma Dataset_groupby_sum d :
  Dataset d →
  groupby_sum "Product" "Quantity Sold" d
  = Return ((λ k, (k, quantity_of k d)) <$> group_keys "Product" d).
Proof.
  intros Hd. unfold groupby_sum. apply traverse_Return. intros k _.
  rewrite nansum_numbers by (by apply Dataset_quantity_sold).
  simpl. unfold quantity_of. by rewrite <- list_fmap_compose.
Qed.

Lemma Dataset_group_keys d :
  Dataset d → empty d = false → group_keys "Product" d ≠ [].
Proof.
  intros Hd He. pose proof (Dataset_rows d Hd He) as Hne.
  destruct Hd as (_ & _ & Hrows).
  destruct (rows d) as [|r l] eqn:Hr; [done|].
  apply Forall_cons in Hrows as [(_ & [s Hs] & _) _].
  assert (Hin : Str s ∈ group_keys "Product" d).
  { apply elem_of_group_keys. split; [done|].
    unfold column. rewrite Hr, fmap_cons, Hs. by left. }
  intros Hnil. rewrite Hnil in Hin. by apply elem_of_nil in Hin.
Qed.

(** C1. For every non-empty Dataset, [calculate_metrics] returns, and
    stores, the snapshot in which [Total Sales] is the sum of [total_sales]
    over all rows, [Average Sale Value] is that sum over the number of rows,
    and [Most Popular Product] is a product [p] of the Dataset whose summed
    [quantity_sold] no product exceeds; among the products that reach that
    sum, [p] is the first in the order in which [groupby] lists its groups:
    every group before [p] has a strictly smaller sum.  For the two-row
    table of the specification the snapshot is total 80, average 40,
    product P2. *)
Theorem calculate_metrics_snapshot :
  (∀ self, Dataset (df self) → empty (df self) = false →
     ∃ p before later,
       let m : gmap string cell :=
         <["Total Sales" := Num (sum_total_sales (df self))]>
         (<["Average Sale Value" := Num (mean_total_sales (df self))]>
         (<["Most Popular Product" := p]> ∅)) in
       calculate_metrics self
       = {| value := Return m;
            after := {| df := df self; metrics := m |};
            stdout := [] |} ∧
       p ∈ column "Product" (df self) ∧
       (∀ p', p' ∈ column "Product" (df self) →
              quantity_of p' (df self) <= quantity_of p (df self)) ∧
       group_keys "Product" (df self) = before ++ p :: later ∧
       Forall (λ p', quantity_of p' (df self) < quantity_of p (df self))
         before) ∧
  value (calculate_metrics (after (load_data world "retail_sales.csv" init)))
  = Return (<["Total Sales" := Num (Qc_of_Z 80)]>
           (<["Average Sale Value" := Num (Qc_of_Z 40)]>
           (<["Most Popular Product" := Str "P2"]> ∅))).
Proof.
  split; [|apply (bool_decide_unpack _); by vm_compute].
  intros self Hd He.
  destruct (idxmax_first_maximum
              ((λ k, (k, quantity_of k (df self)))
               <$> group_keys "Product" (df self)))
    as (p & pre & v & post & Hidx & Hsplit & Hpre & Hpost).
  { intros Hnil%fmap_nil_inv. by apply (Dataset_group_keys (df self)). }
  apply fmap_app_inv in Hsplit as (before & rest & -> & Hrest & Hkeys).
  symmetry in Hrest.
  apply fmap_cons_inv in Hrest as (p0 & later & [= -> ->] & -> & ->).
  exists p0, before, later. cbv zeta.
  assert (Hmax : ∀ p', p' ∈ group_keys "Product" (df self) →
            quantity_of p' (df self) <= quantity_of p0 (df self)).
  { intros p'. rewrite Hkeys, elem_of_app, elem_of_cons.
    intros [Hin|[->|Hin]].
    - apply Qclt_le_weak. rewrite Forall_fmap, Forall_forall in Hpre.
      by apply Hpre.
    - apply Qcle_refl.
    - rewrite Forall_fmap, Forall_forall in Hpost. by apply Hpost. }
  assert (Hp0 : p0 ∈ group_keys "Product" (df self)).
  { rewrite Hkeys, elem_of_app, elem_of_cons. auto. }
  apply elem_of_group_keys in Hp0 as [_ Hp0].
  repeat split; [|done| |done|by rewrite Forall_fmap in Hpre].
  - unfold calculate_metrics. rewrite He.
    rewrite nansum_numbers by (by apply Dataset_total_sales).
    rewrite nanmean_numbers; [|by apply Dataset_total_sales|].
    + rewrite Dataset_groupby_sum by done. simpl. rewrite Hidx. simpl.
      unfold mean_total_sales, sum_total_sales, column.
      by rewrite <- list_fmap_compose, length_fmap.
    + unfold column. intros Hnil%fmap_nil_inv.
      by apply (Dataset_rows (df self)).
  - intros p' Hp'. apply Hmax, elem_of_group_keys. split; [|done].
    destruct Hd as (_ & _ & Hrows). rewrite Forall_forall in Hrows.
    unfold column in Hp'. apply list_elem_of_fmap in Hp' as (r & -> & Hr).
    by destruct (Hrows r Hr) as (_ & [s ->] & _).
Qed.

(** C8. When the Dataset is empty, [calculate_metrics] prints that no data
    is loaded and returns the empty mapping: nothing is computed, nothing is
    raised, and the session object is as it was.  In the menu loop, a load
    that succeeds with no valid row is followed by such a call, and the loop
    goes on to its next iteration. *)
Theorem calculate_metrics_empty :
  (∀ self, empty (df self) = true →
     calculate_metrics self
     = {| value := Return ∅; after := self; stdout := [NoDataMetrics] |}) ∧
  (∀ W stdin line analyzer,
     let file_path :=
       if decide (strip line = "") then "retail_sales.csv" else strip line in
     let r := load_data W file_path analyzer in
     value r = Return true → empty (df (after r)) = true →
     ∃ out, iteration W ("1" :: line :: stdin) analyzer
            = Continue stdin (after r) (out ++ [NoDataMetrics])).
Proof.
  assert (Hempty : ∀ self, empty (df self) = true →
     calculate_metrics self
     = {| value := Return ∅; after := self; stdout := [NoDataMetrics] |}).
  { intros self He. unfold calculate_metrics. by rewrite He. }
  split; [exact Hempty|].
  intros W stdin line analyzer file_path r Hv He.
  unfold iteration. rewrite decide_True by done.
  fold file_path. fold r. rewrite Hv, (Hempty _ He). cbn [value after stdout].
  eexists. by rewrite !app_assoc.
Qed.

(** C10. On an empty Dataset [calculate_metrics] returns the empty mapping
    and leaves the stored metrics as they were; [load_data] never writes the
    stored metrics either.  So a snapshot computed from an earlier Dataset
    stays in the session after the Dataset was emptied or replaced.
    [display_summary] prints the stored snapshot as it is, without computing
    it again, whenever the Dataset in the session is not empty; while the
    Dataset is empty it prints the no-data line only. *)
Theorem stored_metrics_outlive_dataset :
  (∀ self, empty (df self) = true →
     value (calculate_metrics self) = Return ∅ ∧
     metrics (after (calculate_metrics self)) = metrics self) ∧
  (∀ W file_path self,
     metrics (after (load_data W file_path self)) = metrics self) ∧
  (∀ self, empty (df self) = false → metrics self ≠ ∅ →
     display_summary self
     = {| value := (print_summary (metrics self)).1;
          after := self;
          stdout := (print_summary (metrics self)).2 |}) ∧
  (∀ self, empty (df self) = true →
     display_summary self
     = {| value := Return (); after := self; stdout := [NoDataSummary] |}).
Proof.
  split; [|split; [|split]];
    [| | |intros self He; unfold display_summary; by rewrite He].
  - intros self He. unfold calculate_metrics. by rewrite He.
  - intros W file_path self. unfold load_data.
    destruct (negb _ || negb _); [done|].
    destruct (read_csv W file_path); [|done].
    by destruct (negb _).
  - intros self He Hm. unfold display_summary. rewrite He.
    rewrite bool_decide_eq_false_2 by done. cbn [value after stdout].
    by destruct (print_summary (metrics self)).
Qed.

(** ** [filter_data] *)

Section Filtering.
Context (W : World).


(** The [Category] column of a Dataset that has rows is a column of texts,
    so the [.str] accessor is there. *)
Lemma Dataset_text_category d :
  Dataset d → empty d = false →
  existsb is_Str (column "Category" d) = true.
Proof.
  intros Hd He. pose proof (Dataset_rows d Hd He) as Hne.
  destruct Hd as (_ & _ & Hrows). unfold column.
  destruct (rows d) as [|r l]; [done|].
  apply Forall_cons in Hrows as [(_ & _ & [s Hs] & _) _].
  by rewrite fmap_cons, Hs.
Qed.








(** C5, as the code has it.  For every non-empty Dataset, a call to
    [filter_data] with a start or end date that the date reader rejects
    raises [ValueError]: it returns no result, prints nothing, and leaves the
    session, its Dataset included, as it was.  Nothing in [main] catches the
    exception: the iteration of the menu loop that made the call ends the
    session with it. *)
Theorem filter_data_rejected_date category start_date end_date self :
  Dataset (df self) →
  empty (df self) = false →
  rejected W start_date ∨ rejected W end_date →
  filter_data W category start_date end_date self
  = {| value := Raise ValueError; after := self; stdout := [] |} ∧
  ∀ n stdin l1 l2 l3,
    or_None (strip l1) = category →
    or_None (strip l2) = start_date →
    or_None (strip l3) = end_date →
    ∃ out, loop W (S n) ("3" :: l1 :: l2 :: l3 :: stdin) self
           = (Terminated ValueError, self, out).
Proof.
  intros Hd He Hrej.
  assert (Hraise : filter_data W category start_date end_date self
            = {| value := Raise ValueError; after := self; stdout := [] |}).
  { unfold filter_data. rewrite He. f_equal.
    rewrite (Dataset_text_category _ Hd He). unfold rejected in Hrej.
    assert (Hstart : ∀ s d1,
      truthy start_date = Some s → parse_datetime W s ≠ Unparseable →
      ∃ d2, (b ← to_datetime W s;
             Return (select (λ r, date_ge (get "Date" r) b) d1))
            = Return d2).
    { intros s d1 _ Hs. unfold to_datetime.
      destruct (parse_datetime W s); [eauto..|done]. }
    assert (Hend : rejected W end_date →
      ∀ d2, match truthy end_date with
            | Some s =>
              b ← to_datetime W s;
              Return (select (λ r, date_le (get "Date" r) b) d2)
            | None => Return d2
            end = Raise ValueError).
    { intros (s & -> & Hs) d2. unfold to_datetime. by rewrite Hs. }
    destruct (truthy category) as [c|]; simpl;
      (destruct (truthy start_date) as [s|] eqn:Hts;
       [destruct (decide (parse_datetime W s = Unparseable)) as [Hs|Hs];
        [unfold to_datetime; by rewrite Hs
        |edestruct (Hstart s) as [d2 ->]; [done..|]; simpl; apply Hend;
         destruct Hrej as [(s' & [= <-] & Hs')|]; done]
       |simpl; apply Hend; destruct Hrej as [(s' & [=] & _)|]; done]). }
  split; [exact Hraise|].
  intros n stdin l1 l2 l3 <- <- <-. cbn [loop]. unfold iteration.
  rewrite !decide_False by done. rewrite decide_True by done.
  rewrite He, Hraise. cbn [value after stdout]. eauto.
Qed.

End Filtering.

(** ** The menu loop ends *)

Section Session.
Context (W : World).

(** An iteration that continues has read at least one line. *)
Lemma iteration_consumes stdin a stdin' a' out :
  iteration W stdin a = Continue stdin' a' out →
  (length stdin' < length stdin)%nat.
Proof.
  unfold iteration. destruct stdin as [|choice stdin]; [done|].
  repeat (case_decide || case_match); try done;
    intros [= <- _ _]; subst; simpl; lia.
Qed.

(** With more iterations allowed than there are lines, the loop ends by the
    exit choice or by an exception. *)
Lemma loop_ends n stdin a :
  (length stdin < n)%nat → (loop W n stdin a).1.1 ≠ StillRunning.
Proof.
  revert stdin a. induction n as [|n IH]; intros stdin a Hn; [lia|].
  simpl. destruct (iteration W stdin a) as [stdin' a' out|a' out|e a' out]
    eqn:Hstep; [|done..].
  apply iteration_consumes in Hstep.
  specialize (IH stdin' a' ltac:(lia)).
  by destruct (loop W n stdin' a') as [[e a''] out'].
Qed.

Lemma main_ends stdin : (main W stdin).1.1 ≠ StillRunning.
Proof. unfold main. apply loop_ends. lia. Qed.

End Session.

(** * The theorems at concrete inputs *)

(** Closes a decidable goal by evaluation. *)
Ltac by_evaluation := apply (bool_decide_unpack _); vm_compute; exact I.

Lemma calculate_metrics_snapshot_witness :
  let self := after (load_data world "retail_sales.csv" init) in
  Dataset (df self) ∧ empty (df self) = false ∧
  ∃ p before later,
    let m : gmap string cell :=
      <["Total Sales" := Num (sum_total_sales (df self))]>
      (<["Average Sale Value" := Num (mean_total_sales (df self))]>
      (<["Most Popular Product" := p]> ∅)) in
    calculate_metrics self
    = {| value := Return m;
         after := {| df := df self; metrics := m |};
         stdout := [] |} ∧
    p ∈ column "Product" (df self) ∧
    (∀ p', p' ∈ column "Product" (df self) →
           quantity_of p' (df self) <= quantity_of p (df self)) ∧
    group_keys "Product" (df self) = before ++ p :: later ∧
    Forall (λ p', quantity_of p' (df self) < quantity_of p (df self)) before.
Proof.
  intros self.
  assert (Hd : Dataset (df self)) by by_evaluation.
  assert (He : empty (df self) = false) by reflexivity.
  split; [exact Hd|]. split; [exact He|].
  exact (proj1 calculate_metrics_snapshot self Hd He).
Defined.


Lemma load_data_derives_total_sales_witness :
  path_exists world "retail_sales.csv" = true ∧
  endswith "retail_sales.csv" ".csv" = true ∧
  read_csv world "retail_sales.csv" = Return sales_csv ∧
  required_columns ⊆ columns sales_csv ∧
  ("Total Sales" ∉ columns sales_csv) ∧
  let d := df (after (load_data world "retail_sales.csv" init)) in
  "Total Sales" ∈ columns d ∧
  Forall (λ r, ∃ price quantity_sold,
            get "Price" r = Num price ∧
            get "Quantity Sold" r = Num quantity_sold ∧
            get "Total Sales" r = Num (price * quantity_sold)) (rows d).
Proof.
  assert (H1 : path_exists world "retail_sales.csv" = true) by reflexivity.
  assert (H2 : endswith "retail_sales.csv" ".csv" = true) by reflexivity.
  assert (H3 : read_csv world "retail_sales.csv" = Return sales_csv)
    by reflexivity.
  assert (H4 : required_columns ⊆ columns sales_csv) by by_evaluation.
  assert (H5 : "Total Sales" ∉ columns sales_csv) by by_evaluation.
  repeat (split; [assumption|]).
  exact (load_data_derives_total_sales world "retail_sales.csv" init
           sales_csv H1 H2 H3 H4 H5).
Defined.

Lemma load_data_missing_columns_witness :
  path_exists world "no_price.csv" = true ∧
  endswith "no_price.csv" ".csv" = true ∧
  read_csv world "no_price.csv" = Return no_price_csv ∧
  ¬ required_columns ⊆ columns no_price_csv ∧
  let r := load_data world "no_price.csv" loaded in
  value r = Return false ∧
  df (after r) = empty_frame ∧
  ∃ missing_cols,
    stdout r = [ErrMissingColumns missing_cols] ∧
    missing_cols ≠ [] ∧
    ∀ col, col ∈ missing_cols
           ↔ col ∈ required_columns ∧ col ∉ columns no_price_csv.
Proof.
  assert (H1 : path_exists world "no_price.csv" = true) by reflexivity.
  assert (H2 : endswith "no_price.csv" ".csv" = true) by reflexivity.
  assert (H3 : read_csv world "no_price.csv" = Return no_price_csv)
    by reflexivity.
  assert (H4 : ¬ required_columns ⊆ columns no_price_csv) by by_evaluation.
  repeat (split; [assumption|]).
  exact (load_data_missing_columns world "no_price.csv" loaded
           no_price_csv H1 H2 H3 H4).
Defined.

(** C3 fails on the code.  With the two-row table loaded, a load from a path
    that does not exist, and a load from an existing file whose name does
    not end in [.csv], both return [False] and both leave the two loaded
    rows in the session. *)
Lemma load_data_bad_path_keeps_dataset :
  let missing := load_data world "nowhere.csv" loaded in
  let not_csv := load_data world "retail_sales.txt" loaded in
  path_exists world "nowhere.csv" = false ∧
  value missing = Return false ∧
  stdout missing = [ErrNotCsv "nowhere.csv"] ∧
  df (after missing) = df loaded ∧
  path_exists world "retail_sales.txt" = true ∧
  value not_csv = Return false ∧
  df (after not_csv) = df loaded ∧
  length (rows (df loaded)) = 2%nat ∧
  empty (df loaded) = false ∧
  df loaded ≠ empty_frame.
Proof.
  repeat split; try reflexivity. intros Heq.
  apply (f_equal (λ d, length (rows d))) in Heq. vm_compute in Heq.
  discriminate.
Qed.

Lemma load_data_failure_witness :
  let missing := load_data world "nowhere.csv" loaded in
  let no_price := load_data world "no_price.csv" loaded in
  (path_exists world "nowhere.csv" = false
   ∨ endswith "nowhere.csv" ".csv" = false) ∧
  path_exists world "no_price.csv" = true ∧
  endswith "no_price.csv" ".csv" = true ∧
  read_csv world "no_price.csv" = Return no_price_csv ∧
  ¬ required_columns ⊆ columns no_price_csv ∧
  (value missing = Return false ∧
   after missing = loaded ∧
   stdout missing = [ErrNotCsv "nowhere.csv"]) ∧
  (value no_price = Return false ∧
   df (after no_price) = empty_frame ∧
   metrics (after no_price) = metrics loaded ∧
   ∃ missing_cols, stdout no_price = [ErrMissingColumns missing_cols]).
Proof.
  cbv zeta.
  assert (H0 : path_exists world "nowhere.csv" = false
               ∨ endswith "nowhere.csv" ".csv" = false)
    by (left; reflexivity).
  assert (H1 : path_exists world "no_price.csv" = true) by reflexivity.
  assert (H2 : endswith "no_price.csv" ".csv" = true) by reflexivity.
  assert (H3 : read_csv world "no_price.csv" = Return no_price_csv)
    by reflexivity.
  assert (H4 : ¬ required_columns ⊆ columns no_price_csv) by by_evaluation.
  repeat (split; [assumption|]).
  split.
  - exact (proj1 (load_data_failure world "nowhere.csv" loaded) H0).
  - exact (proj1 (proj2 (load_data_failure world "no_price.csv" loaded))
             no_price_csv H1 H2 H3 H4).
Defined.

(** C9 fails on the code.  The table with price -5 and quantity -5/2 loads
    successfully and its row is retained with these two values. *)
Lemma load_data_retains_negative_values :
  let r := load_data world "returns.csv" init in
  value r = Return true ∧
  column "Price" (df (after r)) = [Num (Qc_of_Z (-5))] ∧
  column "Quantity Sold" (df (after r)) = [Num (Qc_of_Z (-5) / Qc_of_Z 2)] ∧
  Qc_of_Z (-5) < 0 ∧
  Qc_of_Z (-5) / Qc_of_Z 2 < 0 ∧
  (∀ n : Z, Qc_of_Z (-5) / Qc_of_Z 2 ≠ Qc_of_Z n).
Proof.
  repeat split; try by_evaluation.
  intros n Heq. apply (f_equal (λ x, Qden (this x))) in Heq.
  vm_compute in Heq. discriminate.
Qed.

Lemma load_data_retains_numbers_witness :
  path_exists world "returns.csv" = true ∧
  endswith "returns.csv" ".csv" = true ∧
  read_csv world "returns.csv" = Return returns_csv ∧
  required_columns ⊆ columns returns_csv ∧
  Forall (λ r, (∃ date, get "Date" r = Ts date) ∧
               (∃ price, get "Price" r = Num price) ∧
               (∃ quantity_sold, get "Quantity Sold" r = Num quantity_sold))
    (rows (df (after (load_data world "returns.csv" init)))).
Proof.
  assert (H1 : path_exists world "returns.csv" = true) by reflexivity.
  assert (H2 : endswith "returns.csv" ".csv" = true) by reflexivity.
  assert (H3 : read_csv world "returns.csv" = Return returns_csv)
    by reflexivity.
  assert (H4 : required_columns ⊆ columns returns_csv) by by_evaluation.
  repeat (split; [assumption|]).
  exact (load_data_retains_numbers world "returns.csv" init returns_csv
           H1 H2 H3 H4).
Defined.


(** C5 fails on the code.  A session loads the two-row table, asks for a
    filter with the start date [yesterday], and has the summary and the exit
    choice still to come.  The filter raises [ValueError] and the session
    ends there; the same session without the filter runs to its exit. *)
Lemma rejected_filter_date_ends_session :
  value (filter_data world None (Some "yesterday") None loaded)
    = Raise ValueError ∧
  (main world ["1"; "retail_sales.csv"; "3"; ""; "yesterday"; ""; "2"; "5"]).1.1
    = Terminated ValueError ∧
  (main world ["1"; "retail_sales.csv"; "2"; "5"]).1.1 = Exited.
Proof. repeat split; by vm_compute. Qed.

Lemma filter_data_rejected_date_witness :
  let start_date := Some "yesterday" in
  Dataset (df loaded) ∧
  empty (df loaded) = false ∧
  (rejected world start_date ∨ rejected world None) ∧
  filter_data world None start_date None loaded
  = {| value := Raise ValueError; after := loaded; stdout := [] |} ∧
  ∀ n stdin l1 l2 l3,
    or_None (strip l1) = None →
    or_None (strip l2) = start_date →
    or_None (strip l3) = None →
    ∃ out, loop world (S n) ("3" :: l1 :: l2 :: l3 :: stdin) loaded
           = (Terminated ValueError, loaded, out).
Proof.
  intros start_date.
  assert (H1 : Dataset (df loaded)) by by_evaluation.
  assert (H2 : empty (df loaded) = false) by reflexivity.
  assert (H3 : rejected world start_date ∨ rejected world None).
  { left. exists "yesterday". split; reflexivity. }
  repeat (split; [assumption|]).
  exact (filter_data_rejected_date world None start_date None loaded
           H1 H2 H3).
Defined.

Lemma calculate_metrics_empty_witness :
  empty (df init) = true ∧
  calculate_metrics init
  = {| value := Return ∅; after := init; stdout := [NoDataMetrics] |} ∧
  let r := load_data world "header_only.csv" loaded in
  value r = Return true ∧ empty (df (after r)) = true ∧
  ∃ out, iteration world ["1"; " header_only.csv "; "2"; "5"] loaded
         = Continue ["2"; "5"] (after r) (out ++ [NoDataMetrics]).
Proof.
  assert (H1 : empty (df init) = true) by reflexivity.
  split; [exact H1|].
  split; [exact (proj1 calculate_metrics_empty init H1)|].
  intros r.
  assert (H2 : value r = Return true) by reflexivity.
  assert (H3 : empty (df (after r)) = true) by reflexivity.
  repeat (split; [assumption|]).
  exact (proj2 calculate_metrics_empty world ["2"; "5"] " header_only.csv "
           loaded H2 H3).
Defined.

Lemma stored_metrics_outlive_dataset_witness :
  let emptied := after (load_data world "no_price.csv" loaded) in
  let replaced := after (load_data world "returns.csv" emptied) in
  empty (df emptied) = true ∧
  value (calculate_metrics emptied) = Return ∅ ∧
  metrics (after (calculate_metrics emptied)) = metrics loaded ∧
  empty (df replaced) = false ∧
  metrics replaced ≠ ∅ ∧
  display_summary replaced
  = {| value := Return ();
       after := replaced;
       stdout := [SummaryHeader; SummaryTotal (Num (Qc_of_Z 80));
                  SummaryAverage (Num (Qc_of_Z 40));
                  SummaryProduct (Str "P2"); SummaryFooter] |}.
Proof.
  intros emptied replaced.
  assert (H1 : empty (df emptied) = true) by reflexivity.
  assert (H2 : empty (df replaced) = false) by reflexivity.
  assert (H3 : metrics replaced ≠ ∅) by by_evaluation.
  destruct stored_metrics_outlive_dataset as (Hkeep & Hload & Hshow & _).
  destruct (Hkeep emptied H1) as [H4 H5].
  split; [exact H1|]. split; [exact H4|].
  split; [by rewrite H5; unfold emptied; rewrite Hload|].
  split; [exact H2|]. split; [exact H3|].
  rewrite (Hshow replaced H2 H3).
  assert (Hm : metrics replaced = metrics loaded)
    by (unfold replaced, emptied; by rewrite !Hload).
  rewrite Hm.
  assert (Hp : print_summary (metrics loaded)
               = (Return (), [SummaryHeader; SummaryTotal (Num (Qc_of_Z 80));
                  SummaryAverage (Num (Qc_of_Z 40));
                  SummaryProduct (Str "P2"); SummaryFooter]))
    by by_evaluation.
  by rewrite Hp.
Defined.

(** * The string helpers and the example readers on sample texts *)

Example endswith_samples :
  endswith "retail_sales.csv" ".csv" = true ∧
  endswith "retail_sales.CSV" ".csv" = false ∧
  endswith "csv" ".csv" = false ∧
  endswith ".csv" ".csv" = true.
Proof. repeat split; reflexivity. Qed.

Example lower_strip_samples :
  lower "ELECTRONICS" = "electronics" ∧
  lower "Electronics" = "electronics" ∧
  lower "P-2 [x]" = "p-2 [x]" ∧
  strip "  retail_sales.csv  " = "retail_sales.csv" ∧
  strip "   " = "" ∧
  or_None (strip "   ") = None.
Proof. repeat split; reflexivity. Qed.

(** Beyond ASCII: the capital E with an acute accent (U+00C9) lowers to
    U+00E9, so that the two spellings of a category ending in it are the
    same without regard to case; the multiplication sign (U+00D7) and the
    sharp s (U+00DF) are no capitals. *)
Example lower_latin1_samples :
  let E_acute := String (ascii_of_nat 201) "" in
  let e_acute := String (ascii_of_nat 233) "" in
  lower E_acute = e_acute ∧
  lower (String.append "CAF" E_acute) = String.append "caf" e_acute ∧
  lower (String (ascii_of_nat 215) "") = String (ascii_of_nat 215) "" ∧
  lower (String (ascii_of_nat 223) "") = String (ascii_of_nat 223) "" ∧
  caseless_eq (String.append "CAF" E_acute) (String.append "caf" e_acute) ∧
  ¬ caseless_eq (String.append "CAF" E_acute) "cafe".
Proof. cbv zeta. by_evaluation. Qed.

Example reader_samples :
  decimal "10" = Some (Qc_of_Z 10) ∧
  decimal "-5" = Some (Qc_of_Z (-5)) ∧
  decimal "2.5" = Some (Qc_of_Z 5 / Qc_of_Z 2) ∧
  decimal "abc" = None ∧
  decimal "" = None ∧
  iso_date "1970-01-02" = Stamp 86400000000000 ∧
  iso_date "2024-02-29" = Stamp 1709164800000000000 ∧
  iso_date "2023-02-29" = Unparseable ∧
  iso_date "someday" = Unparseable ∧
  iso_date "NaT" = NaT.
Proof. repeat split; by_evaluation. Qed.

(** * The properties the specification lists as tests *)

(** Of the five rows of [dirty.csv], the one whose price is not a number,
    the one whose date is none and the one without a product are dropped;
    the two others are retained with the price that was read. *)
Example load_dirty_csv :
  let d := df (after (load_data world "dirty.csv" init)) in
  column "Product" d = [Str "P1"; Str "P5"] ∧
  column "Price" d = [Num (Qc_of_Z 10); Num (Qc_of_Z 5 / Qc_of_Z 2)] ∧
  column "Total Sales" d = [Num (Qc_of_Z 30); Num (Qc_of_Z 10)].
Proof. repeat split; by_evaluation. Qed.

(** Two products with the same summed quantity: [idxmax] returns the one
    that [groupby] lists first, which is the one that sorts first, not the
    one that comes first in the rows. *)
Example most_popular_product_tie :
  let self := after (load_data world "tie.csv" init) in
  column "Product" (df self) = [Str "Pear"; Str "Apple"] ∧
  group_keys "Product" (df self) = [Str "Apple"; Str "Pear"] ∧
  metrics (after (calculate_metrics self)) !! "Most Popular Product"
    = Some (Str "Apple").
Proof. repeat split; by_evaluation. Qed.

(** The category filter does not look at case. *)
Example filter_category_any_case :
  let all := value (filter_data world None None None loaded) in
  value (filter_data world (Some "food") None None loaded) = all ∧
  value (filter_data world (Some "FOOD") None None loaded) = all ∧
  value (filter_data world (Some "Food") None None loaded) = all ∧
  value (filter_data world (Some "Foo") None None loaded)
    = Return {| columns := columns (df loaded); rows := [] |}.
Proof. repeat split; by_evaluation. Qed.

(** The two date bounds are inclusive. *)
Example filter_dates_inclusive :
  (column "Date" <$>
     value (filter_data world None (Some "2024-01-01") (Some "2024-01-31")
              loaded))
    = Return [Ts 1704067200000000000] ∧
  (column "Date" <$>
     value (filter_data world None (Some "2024-01-02") (Some "2024-02-01")
              loaded))
    = Return [Ts 1706745600000000000] ∧
  iso_date "2024-01-01" = Stamp 1704067200000000000 ∧
  iso_date "2024-02-01" = Stamp 1706745600000000000.
Proof. repeat split; by_evaluation. Qed.

(** * Further properties of the methods and of the menu loop *)

(** ** The three ways [load_data] can go besides success *)

Section LoadOutcomes.
Context (W : World).

Lemma load_data_bad_path file_path self :
  path_exists W file_path = false ∨ endswith file_path ".csv" = false →
  load_data W file_path self
  = {| value := Return false; after := self;
       stdout := [ErrNotCsv file_path] |}.
Proof.
  intros Hbad. unfold load_data.
  destruct Hbad as [->| ->]; [done|].
  by rewrite orb_true_r.
Qed.

Lemma load_data_unreadable file_path self e :
  path_exists W file_path = true →
  endswith file_path ".csv" = true →
  read_csv W file_path = Raise e →
  load_data W file_path self
  = {| value := Raise e; after := self; stdout := [] |}.
Proof. intros Hex Hcsv Hread. unfold load_data. by rewrite Hex, Hcsv, Hread. Qed.

Lemma load_data_schema file_path self raw :
  path_exists W file_path = true →
  endswith file_path ".csv" = true →
  read_csv W file_path = Return raw →
  ¬ required_columns ⊆ columns raw →
  value (load_data W file_path self) = Return false ∧
  after (load_data W file_path self)
  = {| df := empty_frame; metrics := metrics self |}.
Proof.
  intros Hex Hcsv Hread Hcols. unfold load_data.
  rewrite Hex, Hcsv, Hread. cbn [negb orb].
  by rewrite bool_decide_eq_false_2
    by (intros Hnil; by apply Hcols, required_columns_present).
Qed.

(** X1. [load_data] returns [True] exactly when the path exists, ends in
    [.csv], is read by [pd.read_csv], and the table read has the five
    required columns; how many of its rows are valid plays no part, so a
    table without a single valid row loads successfully. *)
Theorem load_data_succeeds_iff file_path self :
  value (load_data W file_path self) = Return true ↔
  path_exists W file_path = true ∧
  endswith file_path ".csv" = true ∧
  ∃ raw, read_csv W file_path = Return raw ∧
         required_columns ⊆ columns raw.
Proof.
  split.
  - destruct (path_exists W file_path) eqn:Hex;
      [|rewrite load_data_bad_path by auto; done].
    destruct (endswith file_path ".csv") eqn:Hcsv;
      [|rewrite load_data_bad_path by auto; done].
    destruct (read_csv W file_path) as [raw|e] eqn:Hread;
      [|by rewrite (load_data_unreadable _ _ e)].
    destruct (decide (required_columns ⊆ columns raw)) as [Hcols|Hcols].
    + intros _. eauto.
    + destruct (load_data_schema file_path self raw) as [-> _]; done.
  - intros (Hex & Hcsv & raw & Hread & Hcols).
    by destruct (load_data_success W file_path self raw) as [-> _].
Qed.

(** X2. What [load_data] returns does not depend on the session it is called
    on, and a successful load replaces the Dataset wholesale: the frame it
    stores is the same whatever the session held before. *)
Theorem load_data_replaces_wholesale file_path s1 s2 :
  value (load_data W file_path s1) = value (load_data W file_path s2) ∧
  (value (load_data W file_path s1) = Return true →
   df (after (load_data W file_path s1))
   = df (after (load_data W file_path s2))).
Proof.
  unfold load_data.
  destruct (negb _ || negb _); [done|].
  destruct (read_csv W file_path); [|done].
  by destruct (negb _).
Qed.

Lemma retained_other cols col r :
  col ∉ ["Date"; "Price"; "Quantity Sold"; "Total Sales"] →
  get col (retained W cols r) = get col r.
Proof.
  intros Hcol. unfold get, retained, with_total.
  assert (Htyped : typed W r !! col = r !! col).
  { apply typed_other. intros Hin. apply Hcol.
    rewrite !elem_of_cons in Hin. rewrite !elem_of_cons. tauto. }
  destruct (decide _); [by rewrite Htyped|].
  rewrite lookup_insert_ne; [by rewrite Htyped|].
  intros <-. apply Hcol. rewrite !elem_of_cons. tauto.
Qed.

Lemma retained_typed_row cols r : row_ok W r → typed_row (retained W cols r).
Proof.
  intros Hok.
  destruct (retained_typed W cols r Hok) as (Hd & Hp & Hq).
  destruct Hok as (Hna & _). unfold required_columns in Hna.
  apply Forall_cons in Hna as [_ Hna].
  apply Forall_cons in Hna as [Hprod Hna].
  apply Forall_cons in Hna as [Hcat _].
  unfold typed_row.
  rewrite (retained_other cols "Product"), (retained_other cols "Category")
    by (apply (bool_decide_unpack _); by vm_compute).
  done.
Qed.

(** A load leaves a frame that a session can hold, whatever it was given. *)
Lemma load_data_session_ok file_path self :
  session_ok self → session_ok (after (load_data W file_path self)).
Proof.
  intros [Hdf Hm].
  destruct (path_exists W file_path) eqn:Hex;
    [|rewrite load_data_bad_path by auto; done].
  destruct (endswith file_path ".csv") eqn:Hcsv;
    [|rewrite load_data_bad_path by auto; done].
  destruct (read_csv W file_path) as [raw|e] eqn:Hread;
    [|by rewrite (load_data_unreadable _ _ e)].
  destruct (decide (required_columns ⊆ columns raw)) as [Hcols|Hcols].
  - destruct (load_data_success W file_path self raw Hex Hcsv Hread Hcols)
      as (_ & _ & Hmet & Hc & Hr).
    split; [|by rewrite Hmet]. right. rewrite Hc, Hr. split; [|split].
    + intros col Hcol. destruct (decide _); [by apply Hcols|].
      apply elem_of_app. left. by apply Hcols.
    + destruct (decide _); [done|]. apply elem_of_app. right. by left.
    + apply Forall_fmap, Forall_forall.
      intros r [Hok _]%list_elem_of_filter. by apply retained_typed_row.
  - destruct (load_data_schema file_path self raw Hex Hcsv Hread Hcols)
      as [_ ->].
    split; [by left|done].
Qed.

End LoadOutcomes.

(** ** What the other methods do to the session *)

Lemma nanmean_formats l a : nanmean l = Return a → formats_as_float a = true.
Proof.
  unfold nanmean. destruct (nansum l) as [s|e]; simpl; [|done].
  intros [= <-]. by destruct (decide _).
Qed.

(** [calculate_metrics] leaves the session as it was, or stores a dictionary
    of the three entries and returns it. *)
Lemma calculate_metrics_cases self :
  after (calculate_metrics self) = self ∨
  ∃ total average product,
    let m : gmap string cell :=
      <["Total Sales" := Num total]>
      (<["Average Sale Value" := average]>
      (<["Most Popular Product" := product]> ∅)) in
    calculate_metrics self
    = {| value := Return m; after := {| df := df self; metrics := m |};
         stdout := [] |} ∧
    formats_as_float average = true.
Proof.
  unfold calculate_metrics. destruct (empty (df self)); [by left|].
  destruct (nansum _) as [total|e]; simpl; [|by left].
  destruct (nanmean _) as [average|e] eqn:Hmean; simpl; [|by left].
  destruct (groupby_sum _ _ _ ≫= idxmax) as [product|e]; simpl; [|by left].
  right. exists total, average, product. split; [done|].
  by apply nanmean_formats in Hmean.
Qed.

Lemma calculate_metrics_df self :
  df (after (calculate_metrics self)) = df self.
Proof.
  destruct (calculate_metrics_cases self) as [->|(t & a & p & -> & _)]; done.
Qed.

Lemma calculate_metrics_session_ok self :
  session_ok self → session_ok (after (calculate_metrics self)).
Proof.
  intros [Hdf Hm].
  destruct (calculate_metrics_cases self) as [->|(t & a & p & -> & Ha)];
    [done|].
  split; [done|]. right. by exists t, a, p.
Qed.

(** [display_summary] leaves the session as [calculate_metrics] does, or as
    it was. *)
Lemma display_summary_after self :
  after (display_summary self) = self ∨
  after (display_summary self) = after (calculate_metrics self).
Proof.
  unfold display_summary. destruct (empty (df self)); [by left|].
  destruct (bool_decide _).
  - right. destruct (value (calculate_metrics self)); [|done].
    by destruct (print_summary _).
  - left. cbn [value after]. by destruct (print_summary _).
Qed.

Lemma filter_data_after W category start_date end_date self :
  after (filter_data W category start_date end_date self) = self.
Proof. unfold filter_data. by destruct (empty (df self)). Qed.

Lemma visualize_data_after self : after (visualize_data self) = self.
Proof. unfold visualize_data. by destruct (empty (df self)). Qed.

(** ** Invariants of the menu loop *)

Section Invariants.
Context (W : World).

(** The session that an iteration leaves is the one it started from, or one
    that [load_data], [calculate_metrics], or the first followed by the
    second, made of it. *)
Lemma iteration_analyzer stdin a :
  let a' := analyzer_of (iteration W stdin a) in
  a' = a ∨
  a' = after (calculate_metrics a) ∨
  ∃ file_path,
    hd "" stdin = "1" ∧
    (a' = after (load_data W file_path a) ∨
     a' = after (calculate_metrics (after (load_data W file_path a)))).
Proof.
  unfold iteration. destruct stdin as [|choice stdin]; [by left|].
  destruct (decide (choice = "1")) as [->|H1].
  { destruct stdin as [|line stdin]; [by left|].
    right. right. eexists. split; [done|].
    destruct (value (load_data _ _ _)) as [[|]|e]; cbn [analyzer_of];
      [|by left..].
    right. by destruct (value (calculate_metrics _)). }
  destruct (decide (choice = "2")) as [->|H2].
  { destruct (display_summary_after a) as [Ha|Ha];
      destruct (value (display_summary a)); cbn [analyzer_of];
      rewrite Ha; auto. }
  destruct (decide (choice = "3")) as [->|H3].
  { destruct (empty (df a)); [by left|].
    destruct stdin as [|l1 [|l2 [|l3 stdin]]]; [by left..|].
    left. destruct (value (filter_data _ _ _ _ _)); cbn [analyzer_of];
      apply filter_data_after. }
  destruct (decide (choice = "4")) as [->|H4].
  { left. destruct (value (visualize_data a)); cbn [analyzer_of];
      apply visualize_data_after. }
  destruct (decide (choice = "5")); by left.
Qed.

Lemma iteration_session_ok stdin a :
  session_ok a → session_ok (analyzer_of (iteration W stdin a)).
Proof.
  intros Ha.
  destruct (iteration_analyzer stdin a)
    as [->|[->|(file_path & _ & [->| ->])]];
    auto using calculate_metrics_session_ok, load_data_session_ok.
Qed.

(** X3. Whatever is typed into the menu and whatever the files hold, the
    session of [main] is at every point one of two things: the empty
    DataFrame, or a frame with the six columns in which every row has a
    timestamp, a product, a category, a price that is a number and a
    quantity that is a number; and its metrics dictionary is empty or holds
    exactly the three entries of [calculate_metrics], a total that is a
    number and an average that formats as a float.  So the printing part of
    [display_summary] never fails on a missing key or on a value of the
    wrong type. *)
Theorem main_session_ok :
  (∀ stdin, session_ok (main W stdin).1.2) ∧
  (∀ n stdin a, session_ok a → session_ok (loop W n stdin a).1.2) ∧
  (∀ a, session_ok a → metrics a ≠ ∅ →
        ∃ out, print_summary (metrics a) = (Return (), out)).
Proof.
  assert (Hloop : ∀ n stdin a,
            session_ok a → session_ok (loop W n stdin a).1.2).
  { induction n as [|n IH]; intros stdin a Ha; [done|]. simpl.
    pose proof (iteration_session_ok stdin a Ha) as Hstep.
    destruct (iteration W stdin a) as [stdin' a' out|a' out|e a' out];
      [|done..].
    specialize (IH stdin' a' Hstep).
    by destruct (loop W n stdin' a') as [[e a''] out']. }
  split; [|split; [exact Hloop|]].
  - intros stdin. apply Hloop. split; by left.
  - intros a [_ [Hm|(t & av & p & Hm & Hav)]] Hne; [done|].
    rewrite Hm. unfold print_summary.
    rewrite lookup_insert_eq. cbn [formats_as_float negb].
    rewrite lookup_insert_ne, lookup_insert_eq by done. rewrite Hav.
    cbn [negb].
    rewrite !lookup_insert_ne, lookup_insert_eq by done. eauto.
Qed.

(** X4. Only option 1 of the menu can change the Dataset: an iteration of
    the loop that reads any other choice, or finds no input left, leaves the
    frame of the session as it was, whether the iteration goes on, exits or
    ends in an exception. *)
Theorem only_load_changes_dataset stdin a :
  hd "" stdin ≠ "1" →
  df (analyzer_of (iteration W stdin a)) = df a.
Proof.
  intros Hchoice.
  destruct (iteration_analyzer stdin a)
    as [->|[->|(file_path & Hone & _)]]; [done| |done].
  apply calculate_metrics_df.
Qed.

(** X5. While no data is loaded, options 2, 3 and 4 of the menu each print
    their notice and nothing else, read no further input (option 3 does not
    ask for its three filters), and leave the session untouched; the loop
    goes on with the next line. *)
Theorem menu_without_data choice stdin a :
  empty (df a) = true →
  choice ∈ ["2"; "3"; "4"] →
  ∃ notice,
    iteration W (choice :: stdin) a
    = Continue stdin a
        ([Menu; Prompt "Enter your choice (1-5): "] ++ [notice]) ∧
    (choice = "2" → notice = NoDataSummary) ∧
    (choice = "3" → notice = PleaseLoad) ∧
    (choice = "4" → notice = NoDataVisualization).
Proof.
  intros He Hchoice. unfold iteration.
  rewrite !elem_of_cons, elem_of_nil in Hchoice.
  destruct Hchoice as [->|[->|[->|[]]]];
    rewrite ?decide_False by done; rewrite decide_True by done.
  - unfold display_summary. rewrite He. cbn [value after stdout].
    eexists. by repeat split.
  - rewrite He. eexists. by repeat split.
  - unfold visualize_data. rewrite He. cbn [value after stdout].
    eexists. by repeat split.
Qed.

End Invariants.

(** ** Metrics of a Dataset, through [display_summary] and through the menu *)

(** On a Dataset that has rows [calculate_metrics] stores and returns the
    sum, the mean, and a product of maximal summed quantity. *)
Lemma calculate_metrics_Dataset self :
  Dataset (df self) → empty (df self) = false →
  ∃ p,
    let m : gmap string cell :=
      <["Total Sales" := Num (sum_total_sales (df self))]>
      (<["Average Sale Value" := Num (mean_total_sales (df self))]>
      (<["Most Popular Product" := p]> ∅)) in
    calculate_metrics self
    = {| value := Return m; after := {| df := df self; metrics := m |};
         stdout := [] |} ∧
    p ∈ column "Product" (df self) ∧
    ∀ p', p' ∈ column "Product" (df self) →
          quantity_of p' (df self) <= quantity_of p (df self).
Proof.
  intros Hd He.
  destruct (idxmax_first_maximum
              ((λ k, (k, quantity_of k (df self)))
               <$> group_keys "Product" (df self)))
    as (p & pre & v & post & Hidx & Hsplit & Hpre & Hpost).
  { intros Hnil%fmap_nil_inv. by apply (Dataset_group_keys (df self)). }
  assert (Hin : (p, v) ∈ (λ k, (k, quantity_of k (df self)))
                         <$> group_keys "Product" (df self)).
  { rewrite Hsplit, elem_of_app, elem_of_cons. auto. }
  apply list_elem_of_fmap in Hin as (p0 & [= -> ->] & Hp0).
  assert (Hmax : ∀ e, e ∈ (λ k, (k, quantity_of k (df self)))
                          <$> group_keys "Product" (df self) →
                      e.2 <= quantity_of p0 (df self)).
  { intros e. rewrite Hsplit, elem_of_app, elem_of_cons.
    rewrite Forall_forall in Hpre. rewrite Forall_forall in Hpost.
    intros [Hin|[->|Hin]];
      [by apply Qclt_le_weak, Hpre|apply Qcle_refl|by apply Hpost]. }
  exists p0. cbv zeta. split; [|split].
  - unfold calculate_metrics. rewrite He.
    rewrite nansum_numbers by (by apply Dataset_total_sales).
    rewrite nanmean_numbers; [|by apply Dataset_total_sales|].
    + rewrite Dataset_groupby_sum by done. simpl. rewrite Hidx. simpl.
      unfold mean_total_sales, sum_total_sales, column.
      by rewrite <- list_fmap_compose, length_fmap.
    + unfold column. intros Hnil%fmap_nil_inv.
      by apply (Dataset_rows (df self)).
  - by apply elem_of_group_keys in Hp0 as [_ Hp0].
  - intros p' Hp'.
    apply (Hmax (p', quantity_of p' (df self))).
    apply list_elem_of_fmap. exists p'. split; [done|].
    apply elem_of_group_keys. split; [|done].
    destruct Hd as (_ & _ & Hrows). rewrite Forall_forall in Hrows.
    unfold column in Hp'. apply list_elem_of_fmap in Hp' as (r & -> & Hr).
    by destruct (Hrows r Hr) as (_ & [s ->] & _).
Qed.

(** X6. On a Dataset that has rows and a session whose metrics dictionary
    is empty, [display_summary] first computes the metrics, stores them in
    the session, and prints them: the sum of the total sales, their mean,
    and a product of maximal summed quantity, between the header and the
    footer line. *)
Theorem display_summary_computes_first self :
  Dataset (df self) → empty (df self) = false → metrics self = ∅ →
  ∃ p,
    let m : gmap string cell :=
      <["Total Sales" := Num (sum_total_sales (df self))]>
      (<["Average Sale Value" := Num (mean_total_sales (df self))]>
      (<["Most Popular Product" := p]> ∅)) in
    display_summary self
    = {| value := Return ();
         after := {| df := df self; metrics := m |};
         stdout := [SummaryHeader;
                    SummaryTotal (Num (sum_total_sales (df self)));
                    SummaryAverage (Num (mean_total_sales (df self)));
                    SummaryProduct p; SummaryFooter] |} ∧
    p ∈ column "Product" (df self) ∧
    ∀ p', p' ∈ column "Product" (df self) →
          quantity_of p' (df self) <= quantity_of p (df self).
Proof.
  intros Hd He Hm.
  destruct (calculate_metrics_Dataset self Hd He) as (p & Hrun & Hp & Hmax).
  exists p. cbv zeta in *. split; [|done].
  unfold display_summary. rewrite He, Hm.
  rewrite bool_decide_eq_true_2 by done. rewrite Hrun.
  cbn [value after stdout metrics]. unfold print_summary.
  rewrite lookup_insert_eq. cbn [formats_as_float negb].
  rewrite lookup_insert_ne, lookup_insert_eq by done.
  cbn [formats_as_float negb].
  by rewrite !lookup_insert_ne, lookup_insert_eq by done.
Qed.

(** X7. Option 1 of the menu recomputes the metrics whenever it loads a
    Dataset that has rows: after the iteration, the session holds the loaded
    frame together with the sum, the mean and a most popular product of that
    frame, whatever metrics it held before, and the loop goes on. *)
Theorem menu_load_recomputes_metrics W line stdin a :
  let file_path :=
    if decide (strip line = "") then "retail_sales.csv" else strip line in
  let d := df (after (load_data W file_path a)) in
  value (load_data W file_path a) = Return true →
  Dataset d → empty d = false →
  ∃ p out,
    iteration W ("1" :: line :: stdin) a
    = Continue stdin
        {| df := d;
           metrics :=
             <["Total Sales" := Num (sum_total_sales d)]>
             (<["Average Sale Value" := Num (mean_total_sales d)]>
             (<["Most Popular Product" := p]> ∅)) |}
        out ∧
    p ∈ column "Product" d ∧
    ∀ p', p' ∈ column "Product" d → quantity_of p' d <= quantity_of p d.
Proof.
  intros file_path d Hv Hd He.
  destruct (calculate_metrics_Dataset _ Hd He) as (p & Hrun & Hp & Hmax).
  exists p. eexists. split; [|done].
  unfold iteration. rewrite decide_True by done.
  fold file_path. rewrite Hv. cbv zeta in Hrun. rewrite Hrun.
  cbn [value after stdout]. reflexivity.
Qed.

(** ** [filter_data] on any frame *)

Section FilterAnyFrame.
Context (W : World).


Lemma lower_empty s : lower s = "" → s = "".
Proof. by destruct s. Qed.

(** X8. Whatever the frame and the arguments, [filter_data] leaves the
    session as it was, and a result it returns holds rows of the Dataset
    only, in their original order, under the header of the Dataset: it never
    adds, changes or reorders a row. *)
Theorem filter_data_never_adds category start_date end_date self :
  let r := filter_data W category start_date end_date self in
  after r = self ∧
  ∀ d, value r = Return d →
       rows d `sublist_of` rows (df self) ∧
       (empty (df self) = false → columns d = columns (df self)).
Proof.
  split; [apply filter_data_after|]. unfold filter_data.
  destruct (empty (df self)).
  { intros d [= <-]. split; [apply sublist_nil_l|done]. }
  cbn [value]. unfold to_datetime.
  destruct (truthy category) as [c|];
    [destruct (existsb is_Str _); [|done]|];
    (destruct (truthy start_date) as [s|];
       [destruct (parse_datetime W s); [| |done]|]);
    (destruct (truthy end_date) as [e|];
       [destruct (parse_datetime W e); [| |done]|]);
    simpl; intros d [= <-]; (split; [|done]);
    unfold select; cbn [rows];
    repeat first [reflexivity | etransitivity; [apply sublist_filter|]].
Qed.

(** X9. The category filter does not look at the case of its argument: two
    category arguments that are equal once lowered give the same result, on
    any frame and with any date bounds. *)
Theorem filter_data_category_case c c' start_date end_date self :
  lower c = lower c' →
  filter_data W (Some c) start_date end_date self
  = filter_data W (Some c') start_date end_date self.
Proof.
  intros Hlower. unfold filter_data, truthy.
  destruct (decide (c = "")) as [->|Hc].
  - symmetry in Hlower. apply lower_empty in Hlower as ->. done.
  - rewrite (decide_False (P := c' = ""))
      by (intros ->; by apply Hc, lower_empty).
    by rewrite Hlower.
Qed.



End FilterAnyFrame.

(** ** Sums by group *)

Lemma nansum_present l :
  Forall (λ c, c = NA ∨ is_number c) l →
  nansum l = Return (sum_list (num_of <$> l)).
Proof.
  induction 1 as [|c l [->|[x ->]] _ IH]; [done|..]; simpl; rewrite IH; simpl.
  - by rewrite Qcplus_0_l.
  - done.
Qed.

Lemma groupby_sum_present by_ col d :
  Forall (λ r, get col r = NA ∨ is_number (get col r)) (rows d) →
  groupby_sum by_ col d
  = Return ((λ k, (k, group_total by_ col k d)) <$> group_keys by_ d).
Proof.
  intros Hcol. unfold groupby_sum. apply traverse_Return. intros k _.
  rewrite nansum_present.
  - simpl. unfold group_total. by rewrite <- list_fmap_compose.
  - apply Forall_fmap, Forall_forall. intros r [_ Hr]%list_elem_of_filter.
    rewrite Forall_forall in Hcol. by apply Hcol.
Qed.







#[local] Instance value_ge_total : Total value_ge.
Proof.
  intros a b. unfold value_ge.
  destruct (Qclt_le_dec a.2 b.2); [right; by apply Qclt_le_weak|by left].
Qed.



Lemma typed_rows_totals d :
  numeric_totals d →
  Forall (λ c, c = NA ∨ is_number c) (column "Total Sales" d).
Proof. intros Ht. unfold column. by apply Forall_fmap. Qed.

Lemma typed_rows_key d by_ :
  by_ ∈ ["Date"; "Product"; "Category"] →
  Forall typed_row (rows d) → Forall (λ r, notna (get by_ r)) (rows d).
Proof.
  intros Hby Hrows. eapply Forall_impl; [exact Hrows|].
  intros r ([t Ht] & Hp & Hc & _).
  rewrite !elem_of_cons, elem_of_nil in Hby.
  destruct Hby as [->|[->|[->|[]]]]; [|done..].
  unfold notna. by rewrite Ht.
Qed.

Lemma group_keys_nonempty by_ d :
  rows d ≠ [] → Forall (λ r, notna (get by_ r)) (rows d) →
  group_keys by_ d ≠ [].
Proof.
  intros Hne Hkey Hnil. destruct (rows d) as [|r l] eqn:Hr; [done|].
  apply Forall_cons in Hkey as [Hk _].
  assert (Hin : get by_ r ∈ group_keys by_ d).
  { apply elem_of_group_keys. split; [done|].
    unfold column. rewrite Hr, fmap_cons. by left. }
  rewrite Hnil in Hin. by apply elem_of_nil in Hin.
Qed.



(** X14. Totals that are missing do not count.  On a frame as [load_data]
    leaves it, with rows, whose [Total Sales] column came with the file and
    holds numbers and blanks, [calculate_metrics] returns and stores as
    [Total Sales] the sum of the totals that are present, and as
    [Average Sale Value] that sum over the number of totals that are
    present, not over the number of rows; when no total is present the
    average is [NaN]. *)
Theorem calculate_metrics_skips_missing_totals self :
  Forall typed_row (rows (df self)) → numeric_totals (df self) →
  empty (df self) = false →
  ∃ m,
    value (calculate_metrics self) = Return m ∧
    metrics (after (calculate_metrics self)) = m ∧
    m !! "Total Sales" = Some (Num (sum_total_sales (df self))) ∧
    m !! "Average Sale Value"
    = Some (let n := length (filter notna (column "Total Sales" (df self))) in
            if decide (n = 0%nat) then NA
            else Num (sum_total_sales (df self) / Qc_of_Z (Z.of_nat n))).
Proof.
  intros Hrows Htot He.
  assert (Hne : rows (df self) ≠ [])
    by (intros Hnil; unfold empty in He; by rewrite Hnil in He).
  destruct (idxmax_first_maximum
              ((λ k, (k, group_total "Product" "Quantity Sold" k (df self)))
               <$> group_keys "Product" (df self)))
    as (p & _ & _ & _ & Hidx & _).
  { intros Hnil%fmap_nil_inv. revert Hnil.
    apply group_keys_nonempty; [done|].
    apply typed_rows_key; [rewrite !elem_of_cons; auto|done]. }
  unfold calculate_metrics. rewrite He. unfold nanmean.
  rewrite nansum_present by (by apply typed_rows_totals).
  rewrite groupby_sum_present
    by (eapply Forall_impl; [exact Hrows|]; by intros r (_ & _ & _ & _ & ?);
        right).
  simpl. rewrite Hidx. simpl. eexists. split; [reflexivity|].
  split; [reflexivity|].
  rewrite lookup_insert_eq, lookup_insert_ne, lookup_insert_eq by done.
  unfold sum_total_sales, column. by rewrite <- !list_fmap_compose.
Qed.

(** * The further properties at concrete inputs *)

Lemma load_data_replaces_wholesale_witness :
  value (load_data world "tie.csv" init)
  = value (load_data world "tie.csv" loaded) ∧
  value (load_data world "tie.csv" init) = Return true ∧
  df (after (load_data world "tie.csv" init))
  = df (after (load_data world "tie.csv" loaded)).
Proof.
  assert (H1 : value (load_data world "tie.csv" init) = Return true)
    by reflexivity.
  destruct (load_data_replaces_wholesale world "tie.csv" init loaded)
    as [H2 H3].
  exact (conj H2 (conj H1 (H3 H1))).
Defined.

Lemma main_session_ok_witness :
  let a := (main world ["1"; "retail_sales.csv"; "1"; "no_price.csv";
                        "1"; "returns.csv"; "5"]).1.2 in
  session_ok a ∧ metrics a ≠ ∅ ∧
  ∃ out, print_summary (metrics a) = (Return (), out).
Proof.
  intros a.
  assert (H1 : session_ok a) by apply (proj1 (main_session_ok world)).
  assert (H2 : metrics a ≠ ∅) by by_evaluation.
  exact (conj H1 (conj H2 (proj2 (proj2 (main_session_ok world)) a H1 H2))).
Defined.

Lemma only_load_changes_dataset_witness :
  hd "" ["3"; "food"; "yesterday"; ""] ≠ "1" ∧
  df (analyzer_of (iteration world ["3"; "food"; "yesterday"; ""] loaded))
  = df loaded.
Proof.
  assert (H1 : hd "" ["3"; "food"; "yesterday"; ""] ≠ "1") by by_evaluation.
  exact (conj H1 (only_load_changes_dataset world _ loaded H1)).
Defined.

Lemma menu_without_data_witness :
  empty (df init) = true ∧
  "3" ∈ ["2"; "3"; "4"] ∧
  ∃ notice,
    iteration world ["3"; "food"; ""; ""] init
    = Continue ["food"; ""; ""] init
        ([Menu; Prompt "Enter your choice (1-5): "] ++ [notice]) ∧
    ("3" = "2" → notice = NoDataSummary) ∧
    ("3" = "3" → notice = PleaseLoad) ∧
    ("3" = "4" → notice = NoDataVisualization).
Proof.
  assert (H1 : empty (df init) = true) by reflexivity.
  assert (H2 : "3" ∈ ["2"; "3"; "4"]) by by_evaluation.
  exact (conj H1 (conj H2
           (menu_without_data world "3" ["food"; ""; ""] init H1 H2))).
Defined.

Lemma display_summary_computes_first_witness :
  let self := after (load_data world "retail_sales.csv" init) in
  Dataset (df self) ∧ empty (df self) = false ∧ metrics self = ∅ ∧
  ∃ p,
    let m : gmap string cell :=
      <["Total Sales" := Num (sum_total_sales (df self))]>
      (<["Average Sale Value" := Num (mean_total_sales (df self))]>
      (<["Most Popular Product" := p]> ∅)) in
    display_summary self
    = {| value := Return ();
         after := {| df := df self; metrics := m |};
         stdout := [SummaryHeader;
                    SummaryTotal (Num (sum_total_sales (df self)));
                    SummaryAverage (Num (mean_total_sales (df self)));
                    SummaryProduct p; SummaryFooter] |} ∧
    p ∈ column "Product" (df self) ∧
    ∀ p', p' ∈ column "Product" (df self) →
          quantity_of p' (df self) <= quantity_of p (df self).
Proof.
  intros self.
  assert (H1 : Dataset (df self)) by by_evaluation.
  assert (H2 : empty (df self) = false) by reflexivity.
  assert (H3 : metrics self = ∅) by reflexivity.
  exact (conj H1 (conj H2 (conj H3
           (display_summary_computes_first self H1 H2 H3)))).
Defined.

Lemma menu_load_recomputes_metrics_witness :
  let d := df (after (load_data world "tie.csv" loaded)) in
  value (load_data world "tie.csv" loaded) = Return true ∧
  Dataset d ∧ empty d = false ∧
  ∃ p out,
    iteration world ["1"; " tie.csv"; "2"; "5"] loaded
    = Continue ["2"; "5"]
        {| df := d;
           metrics :=
             <["Total Sales" := Num (sum_total_sales d)]>
             (<["Average Sale Value" := Num (mean_total_sales d)]>
             (<["Most Popular Product" := p]> ∅)) |}
        out ∧
    p ∈ column "Product" d ∧
    ∀ p', p' ∈ column "Product" d → quantity_of p' d <= quantity_of p d.
Proof.
  intros d.
  assert (H1 : value (load_data world "tie.csv" loaded) = Return true)
    by reflexivity.
  assert (H2 : Dataset d) by by_evaluation.
  assert (H3 : empty d = false) by reflexivity.
  exact (conj H1 (conj H2 (conj H3
           (menu_load_recomputes_metrics world " tie.csv" ["2"; "5"] loaded
              H1 H2 H3)))).
Defined.

Lemma filter_data_never_adds_witness :
  let r := filter_data world (Some "food") (Some "2024-01-15") None loaded in
  after r = loaded ∧
  ∃ d, value r = Return d ∧
       rows d `sublist_of` rows (df loaded) ∧
       (empty (df loaded) = false → columns d = columns (df loaded)).
Proof.
  intros r.
  destruct (filter_data_never_adds world (Some "food") (Some "2024-01-15")
              None loaded) as [H1 H2].
  split; [exact H1|].
  destruct (value r) as [d|e] eqn:Hv; [|by vm_compute in Hv].
  exists d. split; [reflexivity|]. exact (H2 d Hv).
Defined.

Lemma filter_data_category_case_witness :
  lower "FOOD" = lower "Food" ∧
  filter_data world (Some "FOOD") None (Some "2024-01-31") loaded
  = filter_data world (Some "Food") None (Some "2024-01-31") loaded.
Proof.
  assert (H1 : lower "FOOD" = lower "Food") by reflexivity.
  exact (conj H1 (filter_data_category_case world "FOOD" "Food" None
                    (Some "2024-01-31") loaded H1)).
Defined.





Lemma calculate_metrics_skips_missing_totals_witness :
  let self := after (load_data wider_world "totals.csv" init) in
  Forall typed_row (rows (df self)) ∧ numeric_totals (df self) ∧
  empty (df self) = false ∧
  ∃ m,
    value (calculate_metrics self) = Return m ∧
    metrics (after (calculate_metrics self)) = m ∧
    m !! "Total Sales" = Some (Num (sum_total_sales (df self))) ∧
    m !! "Average Sale Value"
    = Some (let n := length (filter notna (column "Total Sales" (df self))) in
            if decide (n = 0%nat) then NA
            else Num (sum_total_sales (df self) / Qc_of_Z (Z.of_nat n))).
Proof.
  intros self.
  assert (H1 : Forall typed_row (rows (df self))) by by_evaluation.
  assert (H2 : numeric_totals (df self)) by by_evaluation.
  assert (H3 : empty (df self) = false) by reflexivity.
  exact (conj H1 (conj H2 (conj H3
           (calculate_metrics_skips_missing_totals self H1 H2 H3)))).
Defined.

Lemma load_data_Dataset_witness :
  path_exists world "dirty.csv" = true ∧
  endswith "dirty.csv" ".csv" = true ∧
  read_csv world "dirty.csv" = Return dirty_csv ∧
  required_columns ⊆ columns dirty_csv ∧
  ("Total Sales" ∉ columns dirty_csv) ∧
  Forall (λ r, ∀ col, col ∈ ["Product"; "Category"] →
               get col r = NA ∨ is_text (get col r)) (rows dirty_csv) ∧
  Dataset (df (after (load_data world "dirty.csv" loaded))).
Proof.
  assert (H1 : path_exists world "dirty.csv" = true) by reflexivity.
  assert (H2 : endswith "dirty.csv" ".csv" = true) by reflexivity.
  assert (H3 : read_csv world "dirty.csv" = Return dirty_csv) by reflexivity.
  assert (H4 : required_columns ⊆ columns dirty_csv) by by_evaluation.
  assert (H5 : "Total Sales" ∉ columns dirty_csv) by by_evaluation.
  assert (H6 : Forall (λ r, ∀ col, col ∈ ["Product"; "Category"] →
                 get col r = NA ∨ is_text (get col r)) (rows dirty_csv)).
  { apply Forall_forall. intros r Hr col Hcol.
    assert (Hdec : Forall (λ r, Forall (λ col, get col r = NA
                                               ∨ is_text (get col r))
                                  ["Product"; "Category"]) (rows dirty_csv))
      by by_evaluation.
    rewrite Forall_forall in Hdec. specialize (Hdec r Hr).
    rewrite Forall_forall in Hdec. by apply Hdec. }
  repeat (split; [assumption|]).
  exact (load_data_Dataset world "dirty.csv" loaded dirty_csv
           H1 H2 H3 H4 H5 H6).
Defined.

(** * The aggregates and the missing totals on sample tables *)

(** [mixed.csv]: Food sells 30 + 12 + 10, Toys 50; the first of January
    takes 50 + 10, the second 12, the third 30. *)
Example dashboard_series_mixed :
  let d := df (after (load_data wider_world "mixed.csv" init)) in
  category_sales d
  = Return [(Str "Food", Qc_of_Z 52); (Str "Toys", Qc_of_Z 50)] ∧
  daily_sales d
  = Return [(Ts 1704067200000000000, Qc_of_Z 60);
            (Ts 1704153600000000000, Qc_of_Z 12);
            (Ts 1704240000000000000, Qc_of_Z 30)].
Proof. split; by_evaluation. Qed.

(** [totals.csv]: three rows are retained, one without a total; the totals
    present are 30 and 12, and their mean is 21, not 14. *)
Example metrics_with_a_missing_total :
  let self := after (load_data wider_world "totals.csv" init) in
  length (rows (df self)) = 3%nat ∧
  column "Total Sales" (df self)
  = [Num (Qc_of_Z 30); NA; Num (Qc_of_Z 12)] ∧
  value (calculate_metrics self)
  = Return (<["Total Sales" := Num (Qc_of_Z 42)]>
           (<["Average Sale Value" := Num (Qc_of_Z 21)]>
           (<["Most Popular Product" := Str "P2"]> ∅))).
Proof. repeat split; by_evaluation. Qed.

(** ** How a session ends *)

Section Endings.
Context (W : World).

(** An iteration that goes on has read the lines in front of those it
    leaves. *)
Lemma iteration_suffix stdin a stdin' a' out :
  iteration W stdin a = Continue stdin' a' out → stdin' `suffix_of` stdin.
Proof.
  unfold iteration. destruct stdin as [|choice stdin]; [done|].
  repeat (case_decide || case_match); try done;
    intros [= <- _ _]; subst;
    repeat first [reflexivity | apply suffix_cons_r].
Qed.

(** An iteration breaks out of the loop on the exit choice only. *)
Lemma iteration_break stdin a a' out :
  iteration W stdin a = Break a' out → hd "" stdin = "5" ∧ a' = a.
Proof.
  unfold iteration. destruct stdin as [|choice stdin]; [done|].
  repeat (case_decide || case_match); try done.
  intros [= <- _]. by subst.
Qed.

(** X17. A session exits only through option 5: when [main], or the loop
    from any session, ends in the normal way, the line [5] is among the
    lines it was given.  Every other end of a session is an exception. *)
Theorem main_exits_by_choice :
  (∀ stdin, (main W stdin).1.1 = Exited → "5" ∈ stdin) ∧
  (∀ n stdin a, (loop W n stdin a).1.1 = Exited → "5" ∈ stdin).
Proof.
  assert (Hloop : ∀ n stdin a, (loop W n stdin a).1.1 = Exited → "5" ∈ stdin).
  { induction n as [|n IH]; intros stdin a; [done|]. simpl.
    destruct (iteration W stdin a) as [stdin' a' out|a' out|e a' out]
      eqn:Hstep; [| |done].
    - pose proof (iteration_suffix _ _ _ _ _ Hstep) as [consumed ->].
      specialize (IH stdin' a').
      destruct (loop W n stdin' a') as [[e a''] out']. simpl.
      intros He. apply elem_of_app. right. by apply IH.
    - intros _. apply iteration_break in Hstep as [Hhd _].
      destruct stdin as [|choice stdin]; [done|].
      simpl in Hhd. subst. by left. }
  split; [|exact Hloop]. intros stdin. apply Hloop.
Qed.

(** X18. A file that exists, is named [.csv] and cannot be read as a table
    ends the session: [load_data] lets the exception of [pd.read_csv]
    through without touching the session, and the iteration of the menu loop
    that asked for the load ends the session with that exception, the
    Dataset and the metrics being those from before. *)
Theorem unreadable_file_ends_session line stdin a e n :
  let file_path :=
    if decide (strip line = "") then "retail_sales.csv" else strip line in
  path_exists W file_path = true →
  endswith file_path ".csv" = true →
  read_csv W file_path = Raise e →
  load_data W file_path a = {| value := Raise e; after := a; stdout := [] |} ∧
  ∃ out, loop W (S n) ("1" :: line :: stdin) a = (Terminated e, a, out).
Proof.
  intros file_path Hex Hcsv Hread.
  pose proof (load_data_unreadable W file_path a e Hex Hcsv Hread) as Hrun.
  split; [exact Hrun|].
  cbn [loop]. unfold iteration. rewrite decide_True by done.
  fold file_path. rewrite Hrun. cbn [value after stdout]. eauto.
Qed.

(** X15. [main] always ends: on any input lines and in any world, the menu
    loop stops by the exit choice or by an exception that nothing catches,
    because every iteration that goes on has read at least one line; when no
    line is given at all, the exception is [EOFError]. *)
Theorem main_always_ends :
  (∀ stdin, (main W stdin).1.1 = Exited
            ∨ ∃ e, (main W stdin).1.1 = Terminated e) ∧
  (main W []).1.1 = Terminated EOFError.
Proof.
  split; [|done]. intros stdin.
  pose proof (loop_ends W (S (length stdin)) stdin init ltac:(lia)) as Hend.
  unfold main. destruct (loop W _ stdin init).1.1; eauto. done.
Qed.

End Endings.

Lemma main_exits_by_choice_witness :
  let stdin := ["1"; "retail_sales.csv"; "2"; "9"; "5"; "2"] in
  (main world stdin).1.1 = Exited ∧ "5" ∈ stdin.
Proof.
  intros stdin.
  assert (H1 : (main world stdin).1.1 = Exited) by by_evaluation.
  exact (conj H1 (proj1 (main_exits_by_choice world) stdin H1)).
Defined.

Lemma unreadable_file_ends_session_witness :
  path_exists unreadable_world "broken.csv" = true ∧
  endswith "broken.csv" ".csv" = true ∧
  read_csv unreadable_world "broken.csv" = Raise ReadError ∧
  load_data unreadable_world "broken.csv" loaded
  = {| value := Raise ReadError; after := loaded; stdout := [] |} ∧
  ∃ out, loop unreadable_world 3 ["1"; "broken.csv"; "2"; "5"] loaded
         = (Terminated ReadError, loaded, out).
Proof.
  assert (H1 : path_exists unreadable_world "broken.csv" = true)
    by reflexivity.
  assert (H2 : endswith "broken.csv" ".csv" = true) by reflexivity.
  assert (H3 : read_csv unreadable_world "broken.csv" = Raise ReadError)
    by reflexivity.
  repeat (split; [assumption|]).
  exact (unreadable_file_ends_session unreadable_world "broken.csv"
           ["2"; "5"] loaded ReadError 2 H1 H2 H3).
Defined.
